(** * NIA: instrumented logging and the brain stub

    A shallow embedding of [src/nia_core/logging_config.py] and
    [src/nia_core/brain_core.py].

    - [Module logging] models the part of Python's [logging] package that the
      two files drive: levels, formatters, handlers, the logger table and the
      dispatch of a record to handlers.
    - [Module logging_config] embeds [setup_logging] and [LogContext].
    - [Module brain_core] embeds [NiaBrainCore].

    Text is a sequence of characters with code points below 256.  Times are
    wall-clock readings in microseconds.  Rendering that Python delegates to
    the platform (strftime, isoformat, traceback text) is a [Platform]. *)

From Stdlib Require Import ZArith String Ascii List Bool Lia.
From stdpp Require Import base option gmap strings list fin_maps pretty.
Import ListNotations.

Local Open Scope Z_scope.
Local Open Scope string_scope.
Local Open Scope list_scope.

(** ** Python values and exceptions *)

Inductive PyVal : Type :=
| VNone
| VBool (b : bool)
| VInt (z : Z)
| VStr (s : string).

(** [bool(v)] *)
Definition truthy (v : PyVal) : bool :=
  match v with
  | VNone => false
  | VBool b => b
  | VInt z => negb (Z.eqb z 0)
  | VStr s => negb (String.eqb s "")
  end.

(** [isinstance(v, str)] *)
Definition isinstance_str (v : PyVal) : bool :=
  match v with VStr _ => true | _ => false end.

(** [type(v).__name__] *)
Definition type_name (v : PyVal) : string :=
  match v with
  | VNone => "NoneType"
  | VBool _ => "bool"
  | VInt _ => "int"
  | VStr _ => "str"
  end.

(** [str(v)], as an f-string renders a value *)
Definition py_str (v : PyVal) : string :=
  match v with
  | VNone => "None"
  | VBool true => "True"
  | VBool false => "False"
  | VInt z => pretty z
  | VStr s => s
  end.

Inductive ExcType : Type :=
| ValueError
| RuntimeError
| TypeError
| KeyboardInterrupt.

(** [exc_type.__name__] *)
Definition exc_type_name (t : ExcType) : string :=
  match t with
  | ValueError => "ValueError"
  | RuntimeError => "RuntimeError"
  | TypeError => "TypeError"
  | KeyboardInterrupt => "KeyboardInterrupt"
  end.

Record Exn : Type := mkExn { exc_type : ExcType; exc_msg : string }.

(** The class tests of the two [except] clauses the source uses. *)
Definition is_ValueError (t : ExcType) : bool :=
  match t with ValueError => true | _ => false end.

Definition is_Exception (t : ExcType) : bool :=
  match t with KeyboardInterrupt => false | _ => true end.

(** ** String helpers *)

(** [needle in hay] *)
Fixpoint contains (needle hay : string) : bool :=
  String.prefix needle hay
  || match hay with
     | EmptyString => false
     | String _ rest => contains needle rest
     end.

(** [c.lower()] for a code point below 256: A-Z and the Latin-1 capitals
    (0xC0-0xDE except the multiplication sign 0xD7) move up by 32. *)
Definition lower_char (c : ascii) : ascii :=
  let n := nat_of_ascii c in
  if ((65 <=? n) && (n <=? 90))%nat
     || ((192 <=? n) && (n <=? 222) && negb (n =? 215))%nat
  then ascii_of_nat (n + 32) else c.

(** [s.lower()] *)
Fixpoint lower (s : string) : string :=
  match s with
  | EmptyString => EmptyString
  | String c rest => String (lower_char c) (lower rest)
  end.

(** [s[-1:] != "\n"] *)
Fixpoint lacks_final_newline (s : string) : bool :=
  match s with
  | EmptyString => true
  | String c EmptyString => negb (Ascii.eqb c "010"%char)
  | String _ rest => lacks_final_newline rest
  end.

(** ** Platform rendering *)

Record Platform : Type := mkPlatform {
  (** [time.strftime(datefmt, localtime(t))]; [None] is the default format *)
  strftime : option string -> Z -> string;
  (** [datetime.isoformat()] *)
  isoformat : Z -> string;
  (** [Formatter.formatException]: the traceback text of an exception *)
  formatException : Exn -> string
}.

(** ** The [logging] package *)

Module logging.

Definition NOTSET : Z := 0.
Definition DEBUG : Z := 10.
Definition INFO : Z := 20.
Definition WARNING : Z := 30.
Definition ERROR : Z := 40.
Definition CRITICAL : Z := 50.

(** [logging.getLevelName] *)
Definition getLevelName (l : Z) : string :=
  if Z.eqb l CRITICAL then "CRITICAL"
  else if Z.eqb l ERROR then "ERROR"
  else if Z.eqb l WARNING then "WARNING"
  else if Z.eqb l INFO then "INFO"
  else if Z.eqb l DEBUG then "DEBUG"
  else if Z.eqb l NOTSET then "NOTSET"
  else "Level " +:+ pretty l.

(** A %-style template, already split into literal text and record fields. *)
Inductive Piece : Type :=
| Lit (s : string)
| F_asctime
| F_name
| F_levelname
| F_filename
| F_lineno
| F_message.

Record Formatter : Type := mkFormatter {
  fmt : list Piece;
  datefmt : option string
}.

Record LogRecord : Type := mkLogRecord {
  created : Z;
  name : string;
  levelno : Z;
  filename : string;
  lineno : nat;
  message : string;
  exc_info : option Exn
}.

Inductive HandlerClass : Type :=
| FileHandler (path : string)
| RotatingFileHandler (path : string) (maxBytes backupCount : Z)
| StreamHandler.

Record Handler : Type := mkHandler {
  h_class : HandlerClass;
  h_level : Z;
  h_formatter : Formatter
}.

(** Where a handler writes: a file, or [sys.stderr]. *)
Inductive Dest : Type :=
| ToFile (path : string)
| ToStderr.

Definition h_dest (h : Handler) : Dest :=
  match h_class h with
  | FileHandler p => ToFile p
  | RotatingFileHandler p _ _ => ToFile p
  | StreamHandler => ToStderr
  end.

(** The rotation policy of a handler: (maxBytes, backupCount), if any. *)
Definition h_rotation (h : Handler) : option (Z * Z) :=
  match h_class h with
  | RotatingFileHandler _ m b => Some (m, b)
  | _ => None
  end.

Record Logger : Type := mkLogger {
  level : Z;
  handlers : list Handler
}.

Inductive LoggerRef : Type :=
| Root
| Named (n : string).

(** The state of the package together with what its handlers have written.
    [files] maps a path to the records written to it, oldest first; rotation
    re-chunks that stream into backup files and is kept as policy only.
    Named loggers hang directly below the root logger: a dotted name is not
    linked to intermediate loggers (the repository uses the one name
    "nia_core"). *)
Record State : Type := mkState {
  root : Logger;
  loggerDict : gmap string Logger;
  files : gmap string (list string);
  stderr : list string
}.

(** The package as first imported: a root logger at WARNING with no handlers. *)
Definition initial : State :=
  {| root := {| level := WARNING; handlers := [] |};
     loggerDict := ∅; files := ∅; stderr := [] |}.

Definition fresh_logger : Logger := {| level := NOTSET; handlers := [] |}.

(** [logging.getLogger(name)] *)
Definition getLogger (n : string) (st : State) : LoggerRef * State :=
  if String.eqb n "" || String.eqb n "root" then (Root, st)
  else match loggerDict st !! n with
       | Some _ => (Named n, st)
       | None => (Named n,
                  {| root := root st;
                     loggerDict := <[n := fresh_logger]> (loggerDict st);
                     files := files st; stderr := stderr st |})
       end.

(** Dereference; a name that was never requested reads as a fresh logger. *)
Definition get (r : LoggerRef) (st : State) : Logger :=
  match r with
  | Root => root st
  | Named n => default fresh_logger (loggerDict st !! n)
  end.

Definition put (r : LoggerRef) (l : Logger) (st : State) : State :=
  match r with
  | Root => {| root := l; loggerDict := loggerDict st;
               files := files st; stderr := stderr st |}
  | Named n => {| root := root st; loggerDict := <[n := l]> (loggerDict st);
                  files := files st; stderr := stderr st |}
  end.

Definition ref_name (r : LoggerRef) : string :=
  match r with Root => "root" | Named n => n end.

(** [logger.setLevel(lvl)] *)
Definition setLevel (r : LoggerRef) (lvl : Z) (st : State) : State :=
  put r {| level := lvl; handlers := handlers (get r st) |} st.

(** Opening a file in append mode creates it when absent. *)
Definition open_append (p : string) (st : State) : State :=
  {| root := root st; loggerDict := loggerDict st;
     files := <[p := default [] (files st !! p)]> (files st);
     stderr := stderr st |}.

(** Constructing a handler opens its destination. *)
Definition open_handler (h : Handler) (st : State) : State :=
  match h_dest h with
  | ToFile p => open_append p st
  | ToStderr => st
  end.

(** [logger.addHandler(h)]; a newly constructed handler is never in the list
    already, so it is appended. *)
Definition addHandler (r : LoggerRef) (h : Handler) (st : State) : State :=
  let l := get r st in
  put r {| level := level l; handlers := (handlers l ++ [h])%list |} st.

(** What a destination holds. *)
Definition output (d : Dest) (st : State) : list string :=
  match d with
  | ToFile p => default [] (files st !! p)
  | ToStderr => stderr st
  end.

Definition write (d : Dest) (line : string) (st : State) : State :=
  match d with
  | ToFile p =>
      {| root := root st; loggerDict := loggerDict st;
         files := <[p := (default [] (files st !! p) ++ [line])%list]> (files st);
         stderr := stderr st |}
  | ToStderr =>
      {| root := root st; loggerDict := loggerDict st;
         files := files st; stderr := (stderr st ++ [line])%list |}
  end.

(** [Logger.getEffectiveLevel] *)
Definition getEffectiveLevel (r : LoggerRef) (st : State) : Z :=
  match r with
  | Root => level (root st)
  | Named _ =>
      if Z.eqb (level (get r st)) NOTSET then level (root st) else level (get r st)
  end.

(** [Logger.isEnabledFor] *)
Definition isEnabledFor (r : LoggerRef) (lvl : Z) (st : State) : bool :=
  Z.leb (getEffectiveLevel r st) lvl.

(** The handlers a record emitted on [r] is offered to: its own, then those
    of the root logger it propagates to. *)
Definition reachable_handlers (r : LoggerRef) (st : State) : list Handler :=
  match r with
  | Root => handlers (root st)
  | Named _ => (handlers (get r st) ++ handlers (root st))%list
  end.

Section Rendering.

Variable py : Platform.

Definition render_piece (f : Formatter) (r : LogRecord) (p : Piece) : string :=
  match p with
  | Lit s => s
  | F_asctime => strftime py (datefmt f) (created r)
  | F_name => name r
  | F_levelname => getLevelName (levelno r)
  | F_filename => filename r
  | F_lineno => pretty (lineno r)
  | F_message => message r
  end.

(** [Formatter.formatMessage] *)
Definition formatMessage (f : Formatter) (r : LogRecord) : string :=
  String.concat "" (map (render_piece f r) (fmt f)).

(** [Formatter.format] *)
Definition format (f : Formatter) (r : LogRecord) : string :=
  let s := formatMessage f r in
  match exc_info r with
  | None => s
  | Some e =>
      (if lacks_final_newline s then s +:+ String "010"%char "" else s)
      +:+ formatException py e
  end.

(** One iteration of the loop of [callHandlers]. *)
Definition offer (r : LogRecord) (h : Handler) (st : State) : State :=
  if Z.leb (h_level h) (levelno r)
  then write (h_dest h) (format (h_formatter h) r) st
  else st.

(** The handler of last resort: stderr, WARNING, bare message. *)
Definition lastResort : Handler :=
  {| h_class := StreamHandler; h_level := WARNING;
     h_formatter := {| fmt := [F_message]; datefmt := None |} |}.

(** [Logger.callHandlers] *)
Definition callHandlers (lg : LoggerRef) (r : LogRecord) (st : State) : State :=
  match reachable_handlers lg st with
  | [] => offer r lastResort st
  | hs => fold_left (fun s h => offer r h s) hs st
  end.

End Rendering.

End logging.

(** ** Float formatting: [f"{us / 10**6:.2f}"] *)

(** [a / b] rounded to the nearest integer, ties to even ([0 <= a], [0 < b]). *)
Definition div_half_even (a b : Z) : Z :=
  let q := a / b in
  let r := a mod b in
  if Z.ltb (2 * r) b then q
  else if Z.ltb b (2 * r) then q + 1
  else if Z.even q then q else q + 1.

(** The binary64 nearest to [n / d] as mantissa and exponent, [m * 2^e] with
    [2^52 <= m <= 2^53] ([0 < n], [0 < d]). *)
Definition nearest_double (n d : Z) : Z * Z :=
  let k := Z.log2 n - Z.log2 d in
  let k := if Z.leb 0 k
           then (if Z.leb (d * 2 ^ k) n then k else k - 1)
           else (if Z.leb d (n * 2 ^ (- k)) then k else k - 1) in
  let e := k - 52 in
  let m := if Z.leb 0 e then div_half_even n (d * 2 ^ e)
           else div_half_even (n * 2 ^ (- e)) d in
  (m, e).

(** [m * 2^e] in hundredths, rounded to nearest, ties to even. *)
Definition hundredths (me : Z * Z) : Z :=
  let '(m, e) := me in
  if Z.leb 0 e then m * 2 ^ e * 100 else div_half_even (m * 100) (2 ^ (- e)).

Definition two_digits (n : Z) : string :=
  if Z.ltb n 10 then "0" +:+ pretty n else pretty n.

(** [f"{x:.2f}"] for [x = us / 10**6], the [total_seconds()] of a
    [timedelta] of [us] microseconds. *)
Definition format_2f (us : Z) : string :=
  let c := if Z.eqb us 0 then 0 else hundredths (nearest_double (Z.abs us) 1000000) in
  (if Z.ltb us 0 then "-" else "")
  +:+ pretty (c / 100) +:+ "." +:+ two_digits (c mod 100).

(** ** The running process *)

Module runtime.

(** A call made on a logger: [logger.info(msg)], [logger.error(msg, exc_info=True)], ... *)
Record LogCall : Type := mkLogCall {
  c_logger : logging.LoggerRef;
  c_level : Z;
  c_msg : string;
  c_exc : option Exn
}.

(** The process: the logging package with its outputs, the wall clock as the
    sequence of its successive readings, the history of logger calls, and the
    state [S] of the application object. *)
Record World (S : Type) : Type := mkWorld {
  w_logging : logging.State;
  w_clock : nat -> Z;
  w_ticks : nat;
  w_trace : list LogCall;
  w_self : S
}.

Arguments mkWorld {S}.
Arguments w_logging {S}.
Arguments w_clock {S}.
Arguments w_ticks {S}.
Arguments w_trace {S}.
Arguments w_self {S}.

Inductive Outcome (A : Type) : Type :=
| Return (a : A)
| Raise (e : Exn).

Arguments Return {A}.
Arguments Raise {A}.

(** A Python block: it runs in a world and returns or raises. *)
Definition M (S A : Type) : Type := World S -> Outcome A * World S.

#[export] Instance M_ret {S} : MRet (M S) := fun A a w => (Return a, w).

#[export] Instance M_bind {S} : MBind (M S) := fun A B k m w =>
  match m w with
  | (Return a, w') => k a w'
  | (Raise e, w') => (Raise e, w')
  end.

Definition raise {S A} (e : Exn) : M S A := fun w => (Raise e, w).

(** [try: body except C1 as e: h1 e except C2 as e: h2 e]: the first clause
    whose class test accepts the exception handles it; with none, it goes on. *)
Fixpoint dispatch {S A} (clauses : list ((ExcType -> bool) * (Exn -> M S A)))
    (e : Exn) : M S A :=
  match clauses with
  | [] => raise e
  | (accepts, handler) :: rest =>
      if accepts (exc_type e) then handler e else dispatch rest e
  end.

Definition try_except {S A} (body : M S A)
    (clauses : list ((ExcType -> bool) * (Exn -> M S A))) : M S A :=
  fun w =>
    match body w with
    | (Return a, w') => (Return a, w')
    | (Raise e, w') => dispatch clauses e w'
    end.

(** Read the wall clock. *)
Definition read_clock {S} (w : World S) : Z * World S :=
  (w_clock w (w_ticks w),
   {| w_logging := w_logging w; w_clock := w_clock w;
      w_ticks := Datatypes.S (w_ticks w); w_trace := w_trace w;
      w_self := w_self w |}).

(** [datetime.now()] *)
Definition datetime_now {S} : M S Z := fun w =>
  let '(t, w') := read_clock w in (Return t, w').

Definition get_self {S} : M S S := fun w => (Return (w_self w), w).

Definition set_self {S} (s : S) : M S unit := fun w =>
  (Return tt,
   {| w_logging := w_logging w; w_clock := w_clock w; w_ticks := w_ticks w;
      w_trace := w_trace w; w_self := s |}).

Section Logger.

Variable py : Platform.
Context {S : Type}.

(** [Logger.log(lvl, msg, exc_info=...)] called at [origin] (file, line):
    when the logger is enabled for [lvl], a record stamped with the current
    time is built and handed to the handlers.  Faults inside handlers are
    absorbed by the package. *)
Definition log_at (lg : logging.LoggerRef) (lvl : Z) (origin : string * nat)
    (msg : string) (exc : option Exn) (w : World S) : World S :=
  let tr := (w_trace w ++ [mkLogCall lg lvl msg exc])%list in
  if logging.isEnabledFor lg lvl (w_logging w) then
    let r := logging.mkLogRecord (w_clock w (w_ticks w)) (logging.ref_name lg)
               lvl (fst origin) (snd origin) msg exc in
    {| w_logging := logging.callHandlers py lg r (w_logging w);
       w_clock := w_clock w; w_ticks := Datatypes.S (w_ticks w);
       w_trace := tr; w_self := w_self w |}
  else
    {| w_logging := w_logging w; w_clock := w_clock w; w_ticks := w_ticks w;
       w_trace := tr; w_self := w_self w |}.

Definition log (lg : logging.LoggerRef) (lvl : Z) (origin : string * nat)
    (msg : string) (exc : option Exn) : M S unit :=
  fun w => (Return tt, log_at lg lvl origin msg exc w).

Definition debug lg origin msg := log lg logging.DEBUG origin msg None.
Definition info lg origin msg := log lg logging.INFO origin msg None.
Definition warning lg origin msg := log lg logging.WARNING origin msg None.
(** [logger.error(msg, exc_info=True)] with [e] in flight *)
Definition error_exc lg origin msg (e : Exn) :=
  log lg logging.ERROR origin msg (Some e).
(** [logger.critical(msg, exc_info=True)] with [e] in flight *)
Definition critical_exc lg origin msg (e : Exn) :=
  log lg logging.CRITICAL origin msg (Some e).

End Logger.

End runtime.

(** ** logging_config.py *)

Module logging_config.

Import logging.

(** [Path(__file__).parent.parent / "logs"], relative to the repository.
    The directory is created on import ([mkdir(parents=True, exist_ok=True)]);
    directories are not part of the model. *)
Definition LOG_DIR : string := "src/logs".

Definition ERROR_LOG : string := LOG_DIR +:+ "/nia_errors.log".
Definition INFO_LOG : string := LOG_DIR +:+ "/nia_info.log".
Definition AUDIT_LOG : string := LOG_DIR +:+ "/nia_audit.log".

Definition LOG_FORMAT : list Piece :=
  [F_asctime; Lit " - "; F_name; Lit " - "; F_levelname; Lit " - [";
   F_filename; Lit ":"; F_lineno; Lit "] - "; F_message].
Definition DATE_FORMAT : string := "%Y-%m-%d %H:%M:%S".

Definition error_handler : Handler :=
  {| h_class := FileHandler ERROR_LOG;
     h_level := ERROR;
     h_formatter := {| fmt := LOG_FORMAT; datefmt := Some DATE_FORMAT |} |}.

Definition info_handler : Handler :=
  {| h_class := RotatingFileHandler INFO_LOG (10 * 1024 * 1024) 5;
     h_level := INFO;
     h_formatter := {| fmt := LOG_FORMAT; datefmt := Some DATE_FORMAT |} |}.

Definition audit_handler : Handler :=
  {| h_class := FileHandler AUDIT_LOG;
     h_level := INFO;
     h_formatter :=
       {| fmt := [F_asctime; Lit " - AUDIT - "; F_levelname; Lit " - "; F_message];
          datefmt := Some DATE_FORMAT |} |}.

Definition console_handler : Handler :=
  {| h_class := StreamHandler;
     h_level := WARNING;
     h_formatter :=
       {| fmt := [F_levelname; Lit ": "; F_message; Lit " ["; F_name; Lit "]"];
          datefmt := None |} |}.

(** [setup_logging(logger_name)] *)
Definition setup_logging (logger_name : string) (st : State) : LoggerRef * State :=
  let '(logger, st) := getLogger logger_name st in
  match handlers (get logger st) with
  | _ :: _ => (logger, st)
  | [] =>
      let st := setLevel logger DEBUG st in
      let st := open_handler error_handler st in
      let st := addHandler logger error_handler st in
      let st := open_handler info_handler st in
      let st := addHandler logger info_handler st in
      let st := open_handler audit_handler st in
      let st := addHandler logger audit_handler st in
      let st := open_handler console_handler st in
      let st := addHandler logger console_handler st in
      (logger, st)
  end.

(** [logger = setup_logging("nia_core")], evaluated when the module is imported. *)
Definition logger : LoggerRef := fst (setup_logging "nia_core" initial).

(** The logging package once the module has been imported into a fresh process. *)
Definition imported : State := snd (setup_logging "nia_core" initial).

Module LogContext.

Import runtime.

Record t : Type := mk {
  operation : string;
  logger : LoggerRef;
  start_time : option Z
}.

Definition __init__ (operation_name : string) (logger_instance : option LoggerRef) : t :=
  {| operation := operation_name;
     logger := default logging_config.logger logger_instance;
     start_time := None |}.

Section Scope.

Variable py : Platform.
Context {S : Type}.

Definition __enter__ (self : t) : M S t :=
  now ← datetime_now;
  let self := {| operation := operation self; logger := logger self;
                 start_time := Some now |} in
  _ ← info py (logger self) ("logging_config.py", 105%nat)
        ("START: " +:+ operation self);
  mret self.

(** The text of the closing event for an elapsed time in microseconds. *)
Definition complete_msg (op : string) (duration : Z) : string :=
  "COMPLETE: " +:+ op +:+ " (" +:+ format_2f duration +:+ "s)".

Definition failed_msg (op : string) (duration : Z) (e : Exn) : string :=
  "FAILED: " +:+ op +:+ " after " +:+ format_2f duration +:+ "s - "
  +:+ exc_type_name (exc_type e) +:+ ": " +:+ exc_msg e.

Definition __exit__ (self : t) (exc : option Exn) : M S bool :=
  now ← datetime_now;
  match start_time self with
  | None =>
      raise (mkExn TypeError
        "unsupported operand type(s) for -: 'datetime.datetime' and 'NoneType'")
  | Some start =>
      let duration := now - start in
      _ ← match exc with
          | None =>
              info py (logger self) ("logging_config.py", 112%nat)
                (complete_msg (operation self) duration)
          | Some e =>
              error_exc py (logger self) ("logging_config.py", 114%nat)
                (failed_msg (operation self) duration e) e
          end;
      mret false
  end.

(** [with cm: body], followed by [rest] when the block is left with its
    exception suppressed. *)
Definition with_ {A} (cm : t) (body : M S A) (rest : M S A) : M S A :=
  self ← __enter__ cm;
  ((fun w =>
      match body w with
      | (Return a, w') => (_ ← __exit__ self None; mret a) w'
      | (Raise e, w') =>
          (suppress ← __exit__ self (Some e);
           if suppress : bool then rest else raise e) w'
      end) : M S A).

End Scope.

End LogContext.

End logging_config.

(** ** brain_core.py *)

Module brain_core.

Import runtime.

Definition logger : logging.LoggerRef := logging_config.logger.

Record HistoryEntry : Type := mkEntry {
  timestamp : string;
  prompt : string;
  response : PyVal
}.

Record NiaBrainCore : Type := mkBrain {
  config : gmap string PyVal;
  memory_context : gmap string PyVal;
  conversation_history : list HistoryEntry
}.

(** [if d:] for an optional dict *)
Definition dict_truthy (d : option (gmap string PyVal)) : bool :=
  match d with
  | None => false
  | Some m => negb (Nat.eqb (size m) 0)
  end.

Section Brain.

Variable py : Platform.

Abbreviation B := (M NiaBrainCore).
Abbreviation LogScope op := (logging_config.LogContext.with_ py
                               (logging_config.LogContext.__init__ op (Some logger))).

Definition __init__ (cfg : option (gmap string PyVal)) : B unit :=
  try_except
    (_ ← set_self {| config := default ∅ cfg;
                     memory_context := ∅;
                     conversation_history := [] |};
     info py logger ("brain_core.py", 30%nat) "Nia Brain Core initialized successfully")
    [(is_Exception, fun e =>
        _ ← error_exc py logger ("brain_core.py", 32%nat)
              ("Failed to initialize Nia Brain Core: " +:+ exc_msg e) e;
        raise e)].

(** Past the guard of [think] the prompt is a [str]. *)
Definition as_str (v : PyVal) : B string :=
  match v with
  | VStr s => mret s
  | _ => raise (mkExn TypeError ("'" +:+ type_name v +:+ "' object is not subscriptable"))
  end.

(** [len(v)] *)
Definition len (v : PyVal) : B nat :=
  match v with
  | VStr s => mret (String.length s)
  | _ => raise (mkExn TypeError ("object of type '" +:+ type_name v +:+ "' has no len()"))
  end.

(** [self.memory_context.update(context)]: entries of [context] win. *)
Definition memory_update (ctx : gmap string PyVal) : B unit :=
  self ← get_self;
  set_self {| config := config self;
              memory_context := ctx ∪ memory_context self;
              conversation_history := conversation_history self |}.

(** [self.memory_context[key] = value] *)
Definition memory_setitem (key : string) (value : PyVal) : B unit :=
  self ← get_self;
  set_self {| config := config self;
              memory_context := <[key := value]> (memory_context self);
              conversation_history := conversation_history self |}.

(** [self.conversation_history.append(entry)] *)
Definition history_append (entry : HistoryEntry) : B unit :=
  self ← get_self;
  set_self {| config := config self;
              memory_context := memory_context self;
              conversation_history := (conversation_history self ++ [entry])%list |}.

Definition _process_reasoning (prompt : string) : B PyVal :=
  LogScope "Brain._process_reasoning()"
    (try_except
       (_ ← (if contains "error" (lower prompt)
             then raise (mkExn RuntimeError "Simulated reasoning error")
             else mret tt);
        let result := "Reasoning response to: " +:+ prompt in
        _ ← debug py logger ("brain_core.py", 95%nat)
              ("Processed reasoning: " +:+ substring 0 50 result +:+ "...");
        mret (VStr result))
       [(is_Exception, fun e =>
           _ ← error_exc py logger ("brain_core.py", 99%nat)
                 ("Reasoning processing failed: " +:+ exc_msg e) e;
           raise e)])
    (mret VNone).

Definition think (prompt : PyVal) (context : option (gmap string PyVal)) : B PyVal :=
  LogScope "Brain.think()"
    (try_except
       (_ ← (if negb (truthy prompt) || negb (isinstance_str prompt)
             then raise (mkExn ValueError "Prompt must be a non-empty string")
             else mret tt);
        p ← as_str prompt;
        _ ← info py logger ("brain_core.py", 51%nat)
              ("Processing prompt: " +:+ substring 0 100 p +:+ "...");
        _ ← (if dict_truthy context
             then
               let ctx := default ∅ context in
               _ ← memory_update ctx;
               debug py logger ("brain_core.py", 56%nat)
                 ("Memory context updated with " +:+ pretty (size ctx) +:+ " items")
             else mret tt);
        reasoning_result ← _process_reasoning p;
        now ← datetime_now;
        _ ← history_append {| timestamp := isoformat py now;
                              prompt := p;
                              response := reasoning_result |};
        n ← len reasoning_result;
        _ ← info py logger ("brain_core.py", 68%nat)
              ("Reasoning completed successfully, response length: " +:+ pretty n);
        mret reasoning_result)
       [(is_ValueError, fun e =>
           _ ← warning py logger ("brain_core.py", 72%nat)
                 ("Invalid input for reasoning: " +:+ exc_msg e);
           mret VNone);
        (is_Exception, fun e =>
           _ ← error_exc py logger ("brain_core.py", 75%nat)
                 ("Error during reasoning: " +:+ exc_msg e) e;
           raise e)])
    (mret VNone).

Definition recall_memory (key : string) : B PyVal :=
  LogScope ("Brain.recall_memory(" +:+ key +:+ ")")
    (try_except
       (self ← get_self;
        match memory_context self !! key with
        | Some value =>
            _ ← info py logger ("brain_core.py", 116%nat) ("Memory recalled: " +:+ key);
            mret value
        | None =>
            _ ← warning py logger ("brain_core.py", 119%nat)
                  ("Memory key not found: " +:+ key);
            mret VNone
        end)
       [(is_Exception, fun e =>
           _ ← error_exc py logger ("brain_core.py", 122%nat)
                 ("Error recalling memory: " +:+ exc_msg e) e;
           mret VNone)])
    (mret VNone).

Definition store_memory (key : string) (value : PyVal) : B PyVal :=
  LogScope ("Brain.store_memory(" +:+ key +:+ ")")
    (try_except
       (_ ← (if negb (truthy (VStr key))
             then raise (mkExn ValueError "Memory key cannot be empty")
             else mret tt);
        _ ← memory_setitem key value;
        _ ← info py logger ("brain_core.py", 142%nat)
              ("Memory stored: " +:+ key +:+ " = " +:+ type_name value);
        mret (VBool true))
       [(is_Exception, fun e =>
           _ ← error_exc py logger ("brain_core.py", 146%nat)
                 ("Error storing memory: " +:+ exc_msg e) e;
           mret (VBool false))])
    (mret VNone).

Definition get_conversation_history : B (list HistoryEntry) :=
  try_except
    (self ← get_self;
     _ ← info py logger ("brain_core.py", 157%nat)
           ("Returning conversation history ("
            +:+ pretty (length (conversation_history self)) +:+ " entries)");
     mret (conversation_history self))
    [(is_Exception, fun e =>
        _ ← error_exc py logger ("brain_core.py", 160%nat)
              ("Error retrieving conversation history: " +:+ exc_msg e) e;
        mret [])].

(** [main()]: the demo run, on a brain it constructs itself. *)
Definition main : B PyVal :=
  try_except
    (_ ← info py logger ("brain_core.py", 167%nat) "=== Nia Brain Core Demo ===";
     _ ← __init__ (Some {["mode" := VStr "production"]});
     response ← think (VStr "What is machine learning?") None;
     _ ← info py logger ("brain_core.py", 173%nat)
           ("Brain response: " +:+ py_str response);
     _ ← store_memory "project_name" (VStr "Nia LeSane");
     recalled ← recall_memory "project_name";
     _ ← info py logger ("brain_core.py", 178%nat)
           ("Recalled memory: " +:+ py_str recalled);
     _ ← info py logger ("brain_core.py", 180%nat)
           "=== Demo Completed Successfully ===";
     mret VNone)
    [(is_Exception, fun e =>
        _ ← critical_exc py logger ("brain_core.py", 183%nat)
              ("Critical error in main execution: " +:+ exc_msg e) e;
        raise e)].

End Brain.

End brain_core.

(** ** Vocabulary of the properties *)

Import logging runtime.

(** The four sinks in the order [setup_logging] attaches them. *)
Definition nia_handlers : list Handler :=
  [logging_config.error_handler; logging_config.info_handler;
   logging_config.audit_handler; logging_config.console_handler].

(** The policy of a sink: destination, threshold, rotation. *)
Definition policy (h : Handler) : Dest * Z * option (Z * Z) :=
  (h_dest h, h_level h, h_rotation h).

#[export] Instance Dest_eq_dec : EqDecision Dest.
Proof. solve_decision. Defined.

(** The lines that offering record [r] to the handlers [hs] appends to [d]. *)
Definition delivered (py : Platform) (hs : list Handler) (r : LogRecord) (d : Dest)
    : list string :=
  flat_map (fun h => if Z.leb (h_level h) (levelno r) && bool_decide (h_dest h = d)
                     then [format py (h_formatter h) r] else []) hs.

(** The closing call of a scope that ran for [d] microseconds and ended in [r]. *)
Definition terminal_call {A} (lg : LoggerRef) (op : string) (d : Z)
    (r : Outcome A) : LogCall :=
  match r with
  | Return _ => mkLogCall lg INFO (logging_config.LogContext.complete_msg op d) None
  | Raise e => mkLogCall lg ERROR (logging_config.LogContext.failed_msg op d e) (Some e)
  end.

Definition start_call (lg : LoggerRef) (op : string) : LogCall :=
  mkLogCall lg INFO ("START: " +:+ op) None.

(** The world right after [__enter__] of a scope, and right after its
    [__exit__] when the block ended in [r] and the scope was entered at [t0]. *)
Definition entered {S} (py : Platform) (cm : logging_config.LogContext.t)
    (w : World S) : World S :=
  log_at py (logging_config.LogContext.logger cm) INFO ("logging_config.py", 105%nat)
    ("START: " +:+ logging_config.LogContext.operation cm) None (snd (read_clock w)).

Definition exited {S A} (py : Platform) (cm : logging_config.LogContext.t)
    (t0 : Z) (r : Outcome A) (w : World S) : World S :=
  let c := terminal_call (logging_config.LogContext.logger cm)
             (logging_config.LogContext.operation cm)
             (w_clock w (w_ticks w) - t0) r in
  log_at py (c_logger c) (c_level c)
    ("logging_config.py", match r with Return _ => 112%nat | Raise _ => 114%nat end)
    (c_msg c) (c_exc c) (snd (read_clock w)).

(** The error [_process_reasoning] raises on a prompt that mentions "error". *)
Definition simulated_error : Exn := mkExn RuntimeError "Simulated reasoning error".

(** The memory a call of [think] sees once the context has been merged. *)
Definition merged (context : option (gmap string PyVal))
    (m : gmap string PyVal) : gmap string PyVal :=
  if brain_core.dict_truthy context then default ∅ context ∪ m else m.

(** The logger call [think] makes when it merges a context. *)
Definition context_calls (context : option (gmap string PyVal)) : list LogCall :=
  if brain_core.dict_truthy context
  then [mkLogCall brain_core.logger DEBUG
          ("Memory context updated with " +:+ pretty (size (default ∅ context))
           +:+ " items") None]
  else [].

(** A platform that prints times as plain integers, for the examples. *)
Definition plain_platform : Platform :=
  {| strftime := fun _ t => pretty t;
     isoformat := fun t => pretty t;
     formatException := fun e => exc_type_name (exc_type e) +:+ ": " +:+ exc_msg e |}.

(** A process that has imported the modules, made a brain, and whose clock
    advances by one second per reading. *)
Definition demo_world : World brain_core.NiaBrainCore :=
  mkWorld logging_config.imported (fun n => 1000000 * Z.of_nat n) 0%nat []
    (brain_core.mkBrain ∅ ∅ []).

(** A process whose wall clock is set back by two seconds after the first
    reading. *)
Definition set_back_world : World unit :=
  mkWorld logging_config.imported
    (fun n => match n with O => 5000000 | _ => 3000000 end) 0%nat [] tt.

(** The logging state in which the logger of the brain is as [setup_logging]
    leaves a fresh logger, under a root logger without handlers. *)
Definition configured (st : State) : Prop :=
  get brain_core.logger st = {| level := DEBUG; handlers := nia_handlers |}
  /\ handlers (root st) = [].

(** The line the console sink prints for a logger call. *)
Definition console_line (py : Platform) (c : LogCall) : string :=
  format py (h_formatter logging_config.console_handler)
    (mkLogRecord 0 (ref_name (c_logger c)) (c_level c) "" 0%nat (c_msg c) (c_exc c)).

(** What the console sink prints for a sequence of logger calls. *)
Definition console_view (py : Platform) (calls : list LogCall) : list string :=
  flat_map (fun c => if Z.leb WARNING (c_level c) then [console_line py c] else [])
    calls.

(** How many of the calls a sink with the given threshold accepts. *)
Definition sink_count (threshold : Z) (calls : list LogCall) : nat :=
  length (filter (fun c => Z.leb threshold (c_level c) = true) calls).

(** [w'] comes from [w] by the logger calls [calls], made on the logger of
    the brain: the history of calls grows by them, the clock is the same
    one, and when the logger is configured it stays so, the console shows
    their lines and each sink has been appended one record per call at or
    above its threshold. *)
Definition logged {S} (py : Platform) (w w' : World S) (calls : list LogCall) : Prop :=
  w_trace w' = w_trace w ++ calls
  /\ w_clock w' = w_clock w
  /\ (configured (w_logging w) ->
      configured (w_logging w')
      /\ stderr (w_logging w') = stderr (w_logging w) ++ console_view py calls
      /\ forall h, h ∈ nia_handlers ->
           exists lines,
             output (h_dest h) (w_logging w')
             = output (h_dest h) (w_logging w) ++ lines
             /\ length lines = sink_count (h_level h) calls).

(** The entry [think] appends for prompt [p] at time [t]. *)
Definition history_entry (py : Platform) (t : Z) (p : string) : brain_core.HistoryEntry :=
  brain_core.mkEntry (isoformat py t) p (VStr ("Reasoning response to: " +:+ p)).

(** The calls of [think] up to the reasoning step. *)
Definition think_prologue (p : string) (context : option (gmap string PyVal))
    : list LogCall :=
  [start_call brain_core.logger "Brain.think()";
   mkLogCall brain_core.logger INFO
     ("Processing prompt: " +:+ substring 0 100 p +:+ "...") None]
  ++ context_calls context.

(** The calls of [think] on a prompt it processes to the end, with the
    elapsed times [d1] and [d2] of the two scopes. *)
Definition think_calls (p : string) (context : option (gmap string PyVal))
    (d1 d2 : Z) : list LogCall :=
  think_prologue p context
  ++ [start_call brain_core.logger "Brain._process_reasoning()";
      mkLogCall brain_core.logger DEBUG
        ("Processed reasoning: "
         +:+ substring 0 50 ("Reasoning response to: " +:+ p) +:+ "...") None;
      terminal_call brain_core.logger "Brain._process_reasoning()" d1
        (Return (VStr ("Reasoning response to: " +:+ p)));
      mkLogCall brain_core.logger INFO
        ("Reasoning completed successfully, response length: "
         +:+ pretty (String.length ("Reasoning response to: " +:+ p))) None;
      terminal_call brain_core.logger "Brain.think()" d2
        (Return (VStr ("Reasoning response to: " +:+ p)))].

(** The calls of [think] on a prompt that triggers the simulated error. *)
Definition think_failure_calls (p : string) (context : option (gmap string PyVal))
    (d1 d2 : Z) : list LogCall :=
  think_prologue p context
  ++ [start_call brain_core.logger "Brain._process_reasoning()";
      mkLogCall brain_core.logger ERROR
        "Reasoning processing failed: Simulated reasoning error"
        (Some simulated_error);
      terminal_call (A:=PyVal) brain_core.logger "Brain._process_reasoning()" d1
        (Raise simulated_error);
      mkLogCall brain_core.logger ERROR
        "Error during reasoning: Simulated reasoning error" (Some simulated_error);
      terminal_call (A:=PyVal) brain_core.logger "Brain.think()" d2
        (Raise simulated_error)].

(** The calls of [main]. *)
Definition main_calls (d1 d2 d3 d4 : Z) : list LogCall :=
  [mkLogCall brain_core.logger INFO "=== Nia Brain Core Demo ===" None;
   mkLogCall brain_core.logger INFO "Nia Brain Core initialized successfully" None]
  ++ think_calls "What is machine learning?" None d1 d2
  ++ [mkLogCall brain_core.logger INFO
        "Brain response: Reasoning response to: What is machine learning?" None;
      start_call brain_core.logger "Brain.store_memory(project_name)";
      mkLogCall brain_core.logger INFO "Memory stored: project_name = str" None;
      terminal_call brain_core.logger "Brain.store_memory(project_name)" d3
        (Return (VBool true));
      start_call brain_core.logger "Brain.recall_memory(project_name)";
      mkLogCall brain_core.logger INFO "Memory recalled: project_name" None;
      terminal_call brain_core.logger "Brain.recall_memory(project_name)" d4
        (Return (VStr "Nia LeSane"));
      mkLogCall brain_core.logger INFO "Recalled memory: Nia LeSane" None;
      mkLogCall brain_core.logger INFO "=== Demo Completed Successfully ===" None].

(** A logging state in which the logger "worker" already carries one handler,
    the console at ERROR, and is itself set to ERROR. *)
Definition worker_state : State :=
  addHandler (Named "worker")
    {| h_class := StreamHandler; h_level := ERROR;
       h_formatter := {| fmt := [F_message]; datefmt := None |} |}
    (setLevel (Named "worker") ERROR (snd (getLogger "worker" initial))).

(** The process of [demo_world] with one thing already in the memory. *)
Definition stocked_world : World brain_core.NiaBrainCore :=
  mkWorld logging_config.imported (fun n => 1000000 * Z.of_nat n) 0%nat []
    (brain_core.mkBrain ∅ {["project_name" := VStr "Nia LeSane"]} []).

(** ** Properties of the logging package model *)

Lemma get_put r l st : get r (put r l st) = l.
Proof. destruct r; simpl; [done|]. by rewrite lookup_insert_eq. Qed.

Lemma get_open_handler r h st : get r (open_handler h st) = get r st.
Proof. unfold open_handler. by destruct (h_dest h), r. Qed.


Lemma root_put_named n l st : root (put (Named n) l st) = root st.
Proof. done. Qed.

Lemma get_addHandler r h st :
  get r (addHandler r h st)
  = {| level := level (get r st); handlers := handlers (get r st) ++ [h] |}.
Proof. unfold addHandler. apply get_put. Qed.

Lemma get_setLevel r lvl st :
  get r (setLevel r lvl st) = {| level := lvl; handlers := handlers (get r st) |}.
Proof. unfold setLevel. apply get_put. Qed.



(** [getLogger] returns a reference whose logger reads the same before and
    after the call, and asking again changes nothing. *)
Lemma getLogger_get n st :
  get (fst (getLogger n st)) (snd (getLogger n st)) = get (fst (getLogger n st)) st.
Proof.
  unfold getLogger. destruct (_ || _); [done|].
  destruct (loggerDict st !! n) eqn:E; simpl; [done|].
  by rewrite lookup_insert_eq, E.
Qed.



(** What [setup_logging] leaves behind, in terms of the logger it returns. *)
Lemma setup_logging_ref n st : fst (logging_config.setup_logging n st) = fst (getLogger n st).
Proof.
  unfold logging_config.setup_logging.
  destruct (getLogger n st) as [lg st1]. by destruct (handlers (get lg st1)).
Qed.

Lemma setup_logging_configured n st :
  handlers (get (fst (getLogger n st)) st) = [] ->
  get (fst (getLogger n st)) (snd (logging_config.setup_logging n st))
  = {| level := DEBUG; handlers := nia_handlers |}.
Proof.
  intros Hfresh. pose proof (getLogger_get n st) as Hget.
  unfold logging_config.setup_logging.
  destruct (getLogger n st) as [lg st1]; simpl in *.
  rewrite <- Hget in Hfresh. rewrite Hfresh. cbn [snd].
  repeat (rewrite get_addHandler, get_open_handler).
  rewrite get_setLevel, Hfresh. reflexivity.
Qed.

Lemma setup_logging_kept n st :
  handlers (get (fst (getLogger n st)) st) <> [] ->
  logging_config.setup_logging n st = getLogger n st.
Proof.
  intros Hsome. pose proof (getLogger_get n st) as Hget.
  unfold logging_config.setup_logging.
  destruct (getLogger n st) as [lg st1]; simpl in *.
  rewrite <- Hget in Hsome. by destruct (handlers (get lg st1)).
Qed.


Lemma getLogger_known n st :
  handlers (get (fst (getLogger n st)) st) <> [] ->
  getLogger n st = (fst (getLogger n st), st).
Proof.
  unfold getLogger. destruct (_ || _); [done|].
  destruct (loggerDict st !! n) eqn:E; simpl; [done|].
  rewrite E. simpl. done.
Qed.


Lemma output_write d d' line st :
  output d (write d' line st)
  = if bool_decide (d' = d) then output d st ++ [line] else output d st.
Proof.
  destruct d as [p|], d' as [p'|]; simpl; try done.
  case_bool_decide as E.
  - inversion E; subst. by rewrite lookup_insert_eq.
  - rewrite lookup_insert_ne; [done|congruence].
Qed.

Lemma output_offers py r d hs st :
  output d (fold_left (fun s h => offer py r h s) hs st)
  = output d st ++ delivered py hs r d.
Proof.
  revert st. induction hs as [|h hs IH]; intros st; simpl.
  - by rewrite app_nil_r.
  - rewrite IH. unfold offer, delivered. simpl.
    destruct (Z.leb (h_level h) (levelno r)); simpl.
    + rewrite output_write. case_bool_decide; simpl.
      * by rewrite <- app_assoc.
      * done.
    + done.
Qed.

Lemma output_callHandlers py lg r d st :
  reachable_handlers lg st <> [] ->
  output d (callHandlers py lg r st)
  = output d st ++ delivered py (reachable_handlers lg st) r d.
Proof.
  intros Hne. unfold callHandlers.
  destruct (reachable_handlers lg st) eqn:E; [done|].
  apply output_offers.
Qed.

(** Each destination is served by one of the four sinks only. *)
Lemma delivered_nia_handlers py r h :
  h ∈ nia_handlers ->
  delivered py nia_handlers r (h_dest h)
  = if Z.leb (h_level h) (levelno r) then [format py (h_formatter h) r] else [].
Proof.
  unfold nia_handlers. rewrite !elem_of_cons, elem_of_nil.
  intros [->|[->|[->|[->|[]]]]]; unfold delivered; simpl;
    destruct (Z.leb ERROR (levelno r)) eqn:E1, (Z.leb INFO (levelno r)) eqn:E2,
             (Z.leb WARNING (levelno r)) eqn:E3; simpl; try reflexivity;
    unfold ERROR, INFO, WARNING in *; lia.
Qed.


Lemma reachable_configured lg st :
  handlers (get lg st) = nia_handlers ->
  (lg = Root \/ handlers (root st) = []) ->
  reachable_handlers lg st = nia_handlers.
Proof.
  intros Hh Hroot. destruct lg as [|n]; simpl in *; [done|].
  destruct Hroot as [|Hr]; [done|]. by rewrite Hh, Hr, app_nil_r.
Qed.

(** ** Properties of scopes *)

Section ScopeFacts.

Variable py : Platform.
Context {S : Type}.
Implicit Types (w : World S) (cm : logging_config.LogContext.t).

Lemma trace_log_at lg lvl origin msg exc w :
  w_trace (log_at py lg lvl origin msg exc w) = w_trace w ++ [mkLogCall lg lvl msg exc].
Proof. unfold log_at. by destruct (isEnabledFor _ _ _). Qed.

Lemma self_log_at lg lvl origin msg exc w :
  w_self (log_at py lg lvl origin msg exc w) = w_self w.
Proof. unfold log_at. by destruct (isEnabledFor _ _ _). Qed.

Lemma trace_entered cm w :
  w_trace (entered py cm w)
  = w_trace w ++ [start_call (logging_config.LogContext.logger cm)
                    (logging_config.LogContext.operation cm)].
Proof. unfold entered. by rewrite trace_log_at. Qed.

Lemma self_entered cm w : w_self (entered py cm w) = w_self w.
Proof. unfold entered. by rewrite self_log_at. Qed.

Lemma trace_exited {A} cm t0 (r : Outcome A) w :
  w_trace (exited py cm t0 r w)
  = w_trace w ++ [terminal_call (logging_config.LogContext.logger cm)
                    (logging_config.LogContext.operation cm)
                    (w_clock w (w_ticks w) - t0) r].
Proof. unfold exited. rewrite trace_log_at. by destruct r. Qed.

Lemma self_exited {A} cm t0 (r : Outcome A) w :
  w_self (exited py cm t0 r w) = w_self w.
Proof. unfold exited. by rewrite self_log_at. Qed.

(** A [with] block runs [__enter__], the body, then [__exit__], and hands
    on what the body returned or raised. *)
Lemma with_run {A} cm (body rest : M S A) w :
  logging_config.LogContext.with_ py cm body rest w
  = (fst (body (entered py cm w)),
     exited py cm (w_clock w (w_ticks w)) (fst (body (entered py cm w)))
       (snd (body (entered py cm w)))).
Proof.
  unfold logging_config.LogContext.with_, logging_config.LogContext.__enter__,
    logging_config.LogContext.__exit__, entered, exited.
  unfold mbind, M_bind, mret, M_ret, datetime_now, info, error_exc, log, raise.
  simpl.
  destruct (body _) as [[a|e] w2]; simpl; reflexivity.
Qed.

End ScopeFacts.

(** ** Properties of the brain stub *)

Section BrainFacts.

Variable py : Platform.
Implicit Types (w : World brain_core.NiaBrainCore).

#[local] Arguments log_at : simpl never.
#[local] Arguments entered : simpl never.
#[local] Arguments exited : simpl never.

Ltac run :=
  unfold try_except, dispatch, mbind, M_bind, mret, M_ret, raise, info, debug,
    warning, error_exc, log, get_self, set_self, datetime_now, read_clock,
    brain_core.memory_setitem, brain_core.memory_update,
    brain_core.history_append, brain_core.as_str, brain_core.len;
  simpl.

Ltac proj :=
  rewrite ?self_exited, ?trace_exited, ?self_log_at, ?trace_log_at,
    ?self_entered, ?trace_entered; simpl.

Lemma truthy_nonempty p : p <> "" -> truthy (VStr p) = true.
Proof.
  intros Hp. simpl. destruct (String.eqb p "") eqn:E; [|done].
  apply String.eqb_eq in E. done.
Qed.

Lemma error_prompt_nonempty p : contains "error" (lower p) = true -> p <> "".
Proof. intros H ->. discriminate. Qed.

Lemma process_reasoning_fails p w :
  contains "error" (lower p) = true ->
  exists w' d,
    brain_core._process_reasoning py p w = (Raise simulated_error, w')
    /\ w_self w' = w_self w
    /\ w_trace w' = w_trace w ++
         [start_call brain_core.logger "Brain._process_reasoning()";
          mkLogCall brain_core.logger ERROR
            "Reasoning processing failed: Simulated reasoning error"
            (Some simulated_error);
          terminal_call (A:=PyVal) brain_core.logger "Brain._process_reasoning()" d
            (Raise simulated_error)].
Proof.
  intros Herr. unfold brain_core._process_reasoning. rewrite with_run.
  run. rewrite Herr. simpl. eexists _, _. split; [reflexivity|].
  proj. split; [done|]. rewrite <- !app_assoc. reflexivity.
Qed.

Lemma process_reasoning_returns p w :
  contains "error" (lower p) = false ->
  exists w',
    brain_core._process_reasoning py p w
    = (Return (VStr ("Reasoning response to: " +:+ p)), w')
    /\ w_self w' = w_self w.
Proof.
  intros Herr. unfold brain_core._process_reasoning. rewrite with_run.
  run. rewrite Herr. simpl. eexists. split; [reflexivity|]. by proj.
Qed.

Lemma guard_rejects prompt :
  truthy prompt = false \/ isinstance_str prompt = false ->
  negb (truthy prompt) || negb (isinstance_str prompt) = true.
Proof. intros [-> | ->]; simpl; [done|]. apply orb_true_r. Qed.

Lemma think_rejects prompt context w :
  truthy prompt = false \/ isinstance_str prompt = false ->
  fst (brain_core.think py prompt context w) = Return VNone
  /\ w_self (snd (brain_core.think py prompt context w)) = w_self w.
Proof.
  intros Hbad. apply guard_rejects in Hbad.
  unfold brain_core.think. rewrite with_run. run. rewrite Hbad. simpl.
  split; [done|]. by proj.
Qed.

Lemma store_memory_empty_key value w :
  fst (brain_core.store_memory py "" value w) = Return (VBool false)
  /\ w_self (snd (brain_core.store_memory py "" value w)) = w_self w.
Proof.
  unfold brain_core.store_memory. rewrite with_run. run.
  split; [done|]. by proj.
Qed.

Lemma store_memory_stores k v w :
  k <> "" ->
  fst (brain_core.store_memory py k v w) = Return (VBool true)
  /\ brain_core.memory_context (w_self (snd (brain_core.store_memory py k v w)))
     = <[k := v]> (brain_core.memory_context (w_self w)).
Proof.
  intros Hk. apply truthy_nonempty in Hk. simpl in Hk.
  unfold brain_core.store_memory. rewrite with_run. run. rewrite Hk. simpl.
  split; [done|]. by proj.
Qed.

Lemma recall_memory_lookup k w :
  fst (brain_core.recall_memory py k w)
  = Return (default VNone (brain_core.memory_context (w_self w) !! k))
  /\ w_self (snd (brain_core.recall_memory py k w)) = w_self w.
Proof.
  unfold brain_core.recall_memory. rewrite with_run. run. proj.
  destruct (brain_core.memory_context (w_self w) !! k); simpl; split; try done; by proj.
Qed.

#[local] Arguments brain_core._process_reasoning : simpl never.

Lemma think_fails p context w :
  contains "error" (lower p) = true ->
  exists d1 d2,
    fst (brain_core.think py (VStr p) context w) = Raise simulated_error
    /\ brain_core.memory_context (w_self (snd (brain_core.think py (VStr p) context w)))
       = merged context (brain_core.memory_context (w_self w))
    /\ brain_core.conversation_history
         (w_self (snd (brain_core.think py (VStr p) context w)))
       = brain_core.conversation_history (w_self w)
    /\ w_trace (snd (brain_core.think py (VStr p) context w))
       = w_trace w
         ++ [start_call brain_core.logger "Brain.think()";
             mkLogCall brain_core.logger INFO
               ("Processing prompt: " +:+ substring 0 100 p +:+ "...") None]
         ++ context_calls context
         ++ [start_call brain_core.logger "Brain._process_reasoning()";
             mkLogCall brain_core.logger ERROR
               "Reasoning processing failed: Simulated reasoning error"
               (Some simulated_error);
             terminal_call (A:=PyVal) brain_core.logger
               "Brain._process_reasoning()" d1 (Raise simulated_error);
             mkLogCall brain_core.logger ERROR
               "Error during reasoning: Simulated reasoning error"
               (Some simulated_error);
             terminal_call (A:=PyVal) brain_core.logger "Brain.think()" d2
               (Raise simulated_error)].
Proof.
  intros Herr.
  pose proof (truthy_nonempty p (error_prompt_nonempty p Herr)) as Hp. simpl in Hp.
  unfold brain_core.think. rewrite with_run. run. rewrite Hp. simpl.
  unfold merged, context_calls.
  destruct (brain_core.dict_truthy context); simpl.
  - match goal with |- context [brain_core._process_reasoning py p ?W] =>
      destruct (process_reasoning_fails p W Herr) as (w' & d & -> & Hs & Ht) end.
    simpl. eexists d, _. split; [reflexivity|]. proj. rewrite Hs, Ht. proj.
    repeat split. rewrite <- !app_assoc. reflexivity.
  - match goal with |- context [brain_core._process_reasoning py p ?W] =>
      destruct (process_reasoning_fails p W Herr) as (w' & d & -> & Hs & Ht) end.
    simpl. eexists d, _. split; [reflexivity|]. proj. rewrite Hs, Ht. proj.
    repeat split. rewrite <- !app_assoc. reflexivity.
Qed.

Lemma think_returns p context w :
  p <> "" ->
  contains "error" (lower p) = false ->
  exists entry,
    fst (brain_core.think py (VStr p) context w)
    = Return (VStr ("Reasoning response to: " +:+ p))
    /\ brain_core.prompt entry = p
    /\ brain_core.response entry = VStr ("Reasoning response to: " +:+ p)
    /\ brain_core.conversation_history
         (w_self (snd (brain_core.think py (VStr p) context w)))
       = brain_core.conversation_history (w_self w) ++ [entry].
Proof.
  intros Hp Herr. apply truthy_nonempty in Hp. simpl in Hp.
  unfold brain_core.think. rewrite with_run. run. rewrite Hp. simpl.
  destruct (brain_core.dict_truthy context); simpl.
  - match goal with |- context [brain_core._process_reasoning py p ?W] =>
      destruct (process_reasoning_returns p W Herr) as (w' & -> & Hs) end.
    simpl. eexists. split; [reflexivity|]. proj. rewrite Hs. proj.
    split; [|split]; [| |reflexivity]; reflexivity.
  - match goal with |- context [brain_core._process_reasoning py p ?W] =>
      destruct (process_reasoning_returns p W Herr) as (w' & -> & Hs) end.
    simpl. eexists. split; [reflexivity|]. proj. rewrite Hs. proj.
    split; [|split]; [| |reflexivity]; reflexivity.
Qed.

End BrainFacts.

(** ** String facts *)

Lemma prefix_refl s : String.prefix s s = true.
Proof.
  induction s as [|c s IH]; simpl; [done|].
  destruct (ascii_dec c c); [exact IH|done].
Qed.

Lemma contains_suffix pre s : contains s (pre +:+ s) = true.
Proof.
  induction pre as [|c pre IH].
  - change ("" +:+ s) with s. destruct s as [|c s]; [reflexivity|].
    cbn [contains]. by rewrite prefix_refl.
  - change (String c pre +:+ s) with (String c (pre +:+ s)).
    cbn [contains]. rewrite IH. apply orb_true_r.
Qed.

(** ** The claims *)

(** C1. A [with LogContext(...)] block emits one START call on entry, before
    the body runs, and one closing call after it: COMPLETE at INFO when the
    body returned, FAILED at ERROR (carrying the exception) when it raised.
    The block ends the way the body ended, so a raised exception goes on to
    the caller; apart from the two calls the scope leaves the application
    state alone. *)
Theorem scope_emits_start_and_one_terminal
    (py : Platform) {S A : Type} (cm : logging_config.LogContext.t)
    (body rest : M S A) (w : World S) :
  exists (w1 w2 : World S) (r : Outcome A) (d : Z),
    w_trace w1 = w_trace w ++ [mkLogCall (logging_config.LogContext.logger cm) INFO
                                 ("START: " +:+ logging_config.LogContext.operation cm)
                                 None]
    /\ w_self w1 = w_self w
    /\ body w1 = (r, w2)
    /\ fst (logging_config.LogContext.with_ py cm body rest w) = r
    /\ w_trace (snd (logging_config.LogContext.with_ py cm body rest w))
       = w_trace w2 ++
         [match r with
          | Return _ =>
              mkLogCall (logging_config.LogContext.logger cm) INFO
                (logging_config.LogContext.complete_msg
                   (logging_config.LogContext.operation cm) d) None
          | Raise e =>
              mkLogCall (logging_config.LogContext.logger cm) ERROR
                (logging_config.LogContext.failed_msg
                   (logging_config.LogContext.operation cm) d e) (Some e)
          end]
    /\ w_self (snd (logging_config.LogContext.with_ py cm body rest w)) = w_self w2.
Proof.
  exists (entered py cm w), (snd (body (entered py cm w))),
         (fst (body (entered py cm w))).
  eexists. rewrite with_run. simpl.
  rewrite trace_entered, self_entered, trace_exited, self_exited.
  repeat split. by destruct (body (entered py cm w)).
Qed.

(** C2. A prompt that contains "error" in any letter case makes [think]
    raise the RuntimeError of the reasoning step to the caller (no [None] is
    returned); by then the error has been logged at ERROR, and the last call
    on the logger is the FAILED event of the scope around [think]. *)
Theorem think_error_prompt_raises
    (py : Platform) (p : string) (context : option (gmap string PyVal))
    (w : World brain_core.NiaBrainCore) :
  contains "error" (lower p) = true ->
  let e := mkExn RuntimeError "Simulated reasoning error" in
  exists (d : Z) (earlier : list LogCall),
    fst (brain_core.think py (VStr p) context w) = Raise e
    /\ w_trace (snd (brain_core.think py (VStr p) context w))
       = w_trace w ++ earlier ++
         [mkLogCall brain_core.logger ERROR
            "Error during reasoning: Simulated reasoning error" (Some e);
          mkLogCall brain_core.logger ERROR
            (logging_config.LogContext.failed_msg "Brain.think()" d e) (Some e)].
Proof.
  intros Herr e.
  destruct (think_fails py p context w Herr) as (d1 & d2 & Hr & _ & _ & Ht).
  exists d2.
  exists ([start_call brain_core.logger "Brain.think()";
           mkLogCall brain_core.logger INFO
             ("Processing prompt: " +:+ substring 0 100 p +:+ "...") None]
          ++ context_calls context
          ++ [start_call brain_core.logger "Brain._process_reasoning()";
              mkLogCall brain_core.logger ERROR
                "Reasoning processing failed: Simulated reasoning error"
                (Some simulated_error);
              terminal_call (A:=PyVal) brain_core.logger
                "Brain._process_reasoning()" d1 (Raise simulated_error)]).
  split; [exact Hr|].
  rewrite Ht. rewrite <- !app_assoc. reflexivity.
Qed.




Lemma isEnabledFor_configured lg lvl st :
  get lg st = {| level := DEBUG; handlers := nia_handlers |} ->
  isEnabledFor lg lvl st = Z.leb DEBUG lvl.
Proof.
  intros Hg. unfold isEnabledFor, getEffectiveLevel.
  destruct lg; simpl in *; by rewrite Hg.
Qed.



(** C5. Configuring a logger that has no handlers yet attaches exactly four
    sinks, in this order and with this policy: the error file at ERROR
    without rotation, the info file at INFO rotating at 10 MiB with 5
    backups, the audit file at INFO without rotation, and the console
    (stderr) at WARNING; the logger itself is set to DEBUG. *)
Theorem setup_logging_four_sinks (n : string) (st : State) :
  let lg := fst (logging_config.setup_logging n st) in
  let st' := snd (logging_config.setup_logging n st) in
  handlers (get lg st) = [] ->
  length (handlers (get lg st')) = 4%nat
  /\ handlers (get lg st')
     = [logging_config.error_handler; logging_config.info_handler;
        logging_config.audit_handler; logging_config.console_handler]
  /\ map policy (handlers (get lg st'))
     = [(ToFile "src/logs/nia_errors.log", ERROR, None);
        (ToFile "src/logs/nia_info.log", INFO, Some (10 * 1024 * 1024, 5));
        (ToFile "src/logs/nia_audit.log", INFO, None);
        (ToStderr, WARNING, None)]
  /\ level (get lg st') = DEBUG.
Proof.
  intros lg st' Hfresh. subst lg st'. rewrite setup_logging_ref in *.
  rewrite setup_logging_configured by exact Hfresh. done.
Qed.

(** C6. Storing under a non-empty key succeeds with [True], and recalling
    that key afterwards returns the stored value; recalling a key that is
    not in the memory returns [None] as an ordinary result, not an
    exception. *)
Theorem memory_round_trip
    (py : Platform) (k k' : string) (v : PyVal)
    (w : World brain_core.NiaBrainCore) :
  k <> "" ->
  brain_core.memory_context (w_self w) !! k' = None ->
  fst (brain_core.store_memory py k v w) = Return (VBool true)
  /\ fst (brain_core.recall_memory py k (snd (brain_core.store_memory py k v w)))
     = Return v
  /\ fst (brain_core.recall_memory py k' w) = Return VNone.
Proof.
  intros Hk Habsent.
  destruct (store_memory_stores py k v w Hk) as [Hret Hmem].
  split; [exact Hret|]. split.
  - destruct (recall_memory_lookup py k (snd (brain_core.store_memory py k v w)))
      as [-> _].
    by rewrite Hmem, lookup_insert_eq.
  - destruct (recall_memory_lookup py k' w) as [-> _]. by rewrite Habsent.
Qed.

(** C7. Invalid input is absorbed where it arises: [think] on a prompt that
    is falsy or not a string returns [None], and [store_memory] on the empty
    key returns [False]; neither raises, and neither changes the brain. *)
Theorem invalid_input_absorbed
    (py : Platform) (prompt : PyVal) (context : option (gmap string PyVal))
    (value : PyVal) (w : World brain_core.NiaBrainCore) :
  truthy prompt = false \/ isinstance_str prompt = false ->
  fst (brain_core.think py prompt context w) = Return VNone
  /\ w_self (snd (brain_core.think py prompt context w)) = w_self w
  /\ fst (brain_core.store_memory py "" value w) = Return (VBool false)
  /\ w_self (snd (brain_core.store_memory py "" value w)) = w_self w.
Proof.
  intros Hbad.
  destruct (think_rejects py prompt context w Hbad) as [H1 H2].
  destruct (store_memory_empty_key py value w) as [H3 H4].
  done.
Qed.

(** C8 (amended). The elapsed time in the closing message of a scope is the
    clock reading at exit minus the reading at entry; it is non-negative
    whenever the wall clock at exit is not behind the wall clock at entry. *)
Theorem elapsed_nonneg_when_clock_advances
    (py : Platform) {S A : Type} (cm : logging_config.LogContext.t)
    (body rest : M S A) (w : World S) :
  let r := fst (body (entered py cm w)) in
  let w2 := snd (body (entered py cm w)) in
  let d := w_clock w2 (w_ticks w2) - w_clock w (w_ticks w) in
  w_clock w (w_ticks w) <= w_clock w2 (w_ticks w2) ->
  0 <= d
  /\ last (w_trace (snd (logging_config.LogContext.with_ py cm body rest w)))
     = Some (terminal_call (logging_config.LogContext.logger cm)
               (logging_config.LogContext.operation cm) d r).
Proof.
  intros r w2 d Hclock. split; [subst d; lia|].
  rewrite with_run. simpl. rewrite trace_exited. by rewrite last_snoc.
Qed.

(** C9. On a non-empty prompt that does not contain "error" in any letter
    case, [think] returns "Reasoning response to: " followed by the prompt,
    a string that contains the prompt verbatim. *)
Theorem think_echoes_prompt
    (py : Platform) (p : string) (context : option (gmap string PyVal))
    (w : World brain_core.NiaBrainCore) :
  p <> "" ->
  contains "error" (lower p) = false ->
  fst (brain_core.think py (VStr p) context w)
  = Return (VStr ("Reasoning response to: " +:+ p))
  /\ contains p ("Reasoning response to: " +:+ p) = true.
Proof.
  intros Hp Herr.
  destruct (think_returns py p context w Hp Herr) as (entry & Hr & _).
  split; [exact Hr|]. apply contains_suffix.
Qed.

(** C10. When [think] is given a context and a prompt that triggers the
    simulated error, the error reaches the caller, the memory
    already holds the entries of the context (over the previous memory), and
    the conversation history is what it was.  On a prompt that is processed
    normally the history grows by one entry. *)
Theorem think_not_atomic_on_failure
    (py : Platform) (p : string) (ctx : gmap string PyVal)
    (w : World brain_core.NiaBrainCore) :
  contains "error" (lower p) = true ->
  let out := brain_core.think py (VStr p) (Some ctx) w in
  fst out = Raise (mkExn RuntimeError "Simulated reasoning error")
  /\ brain_core.memory_context (w_self (snd out))
     = ctx ∪ brain_core.memory_context (w_self w)
  /\ (forall k v, ctx !! k = Some v ->
        brain_core.memory_context (w_self (snd out)) !! k = Some v)
  /\ brain_core.conversation_history (w_self (snd out))
     = brain_core.conversation_history (w_self w)
  /\ (forall q, q <> "" -> contains "error" (lower q) = false ->
        length (brain_core.conversation_history
                  (w_self (snd (brain_core.think py (VStr q) (Some ctx) w))))
        = Datatypes.S (length (brain_core.conversation_history (w_self w)))).
Proof.
  intros Herr out. subst out.
  destruct (think_fails py p (Some ctx) w Herr) as (d1 & d2 & Hr & Hm & Hh & _).
  assert (merged (Some ctx) (brain_core.memory_context (w_self w))
          = ctx ∪ brain_core.memory_context (w_self w)) as Hmerged.
  { unfold merged. simpl. destruct (Nat.eqb (size ctx) 0) eqn:E; [|done].
    apply Nat.eqb_eq in E. apply map_size_empty_iff in E. subst ctx.
    by rewrite (left_id_L ∅ (∪)). }
  rewrite Hmerged in Hm.
  split; [exact Hr|]. split; [exact Hm|]. split; [|split; [exact Hh|]].
  - intros k v Hk. rewrite Hm. by apply lookup_union_Some_l.
  - intros q Hq Hok.
    destruct (think_returns py q (Some ctx) w Hq Hok) as (entry & _ & _ & _ & ->).
    rewrite length_app. simpl. lia.
Qed.

(** ** The claims at concrete inputs *)

Example format_2f_samples :
  map format_2f [0; 4999; 5000; 125000; 375000; 1005000; 2675000; -1000; 86400000000]
  = ["0.00"; "0.00"; "0.01"; "0.12"; "0.38"; "1.00"; "2.67"; "-0.00"; "86400.00"].
Proof. vm_compute. reflexivity. Qed.

Lemma think_error_prompt_raises_witness :
  exists (d : Z) (earlier : list LogCall),
    fst (brain_core.think plain_platform (VStr "Please report an ERROR") None demo_world)
    = Raise (mkExn RuntimeError "Simulated reasoning error")
    /\ w_trace (snd (brain_core.think plain_platform
                       (VStr "Please report an ERROR") None demo_world))
       = w_trace demo_world ++ earlier ++
         [mkLogCall brain_core.logger ERROR
            "Error during reasoning: Simulated reasoning error"
            (Some (mkExn RuntimeError "Simulated reasoning error"));
          mkLogCall brain_core.logger ERROR
            (logging_config.LogContext.failed_msg "Brain.think()" d
               (mkExn RuntimeError "Simulated reasoning error"))
            (Some (mkExn RuntimeError "Simulated reasoning error"))].
Proof.
  apply (think_error_prompt_raises plain_platform "Please report an ERROR" None
           demo_world).
  reflexivity.
Defined.


Lemma setup_logging_four_sinks_witness :
  length (handlers (get (Named "nia_core") logging_config.imported)) = 4%nat
  /\ handlers (get (Named "nia_core") logging_config.imported)
     = [logging_config.error_handler; logging_config.info_handler;
        logging_config.audit_handler; logging_config.console_handler]
  /\ map policy (handlers (get (Named "nia_core") logging_config.imported))
     = [(ToFile "src/logs/nia_errors.log", ERROR, None);
        (ToFile "src/logs/nia_info.log", INFO, Some (10 * 1024 * 1024, 5));
        (ToFile "src/logs/nia_audit.log", INFO, None);
        (ToStderr, WARNING, None)]
  /\ level (get (Named "nia_core") logging_config.imported) = DEBUG.
Proof.
  apply (setup_logging_four_sinks "nia_core" initial). reflexivity.
Defined.

Lemma memory_round_trip_witness :
  fst (brain_core.store_memory plain_platform "project_name" (VStr "Nia LeSane")
         demo_world) = Return (VBool true)
  /\ fst (brain_core.recall_memory plain_platform "project_name"
            (snd (brain_core.store_memory plain_platform "project_name"
                    (VStr "Nia LeSane") demo_world)))
     = Return (VStr "Nia LeSane")
  /\ fst (brain_core.recall_memory plain_platform "owner" demo_world) = Return VNone.
Proof.
  apply (memory_round_trip plain_platform "project_name" "owner" (VStr "Nia LeSane")
           demo_world).
  - discriminate.
  - reflexivity.
Defined.

Lemma invalid_input_absorbed_witness :
  fst (brain_core.think plain_platform (VInt 42) None demo_world) = Return VNone
  /\ w_self (snd (brain_core.think plain_platform (VInt 42) None demo_world))
     = w_self demo_world
  /\ fst (brain_core.store_memory plain_platform "" (VInt 1) demo_world)
     = Return (VBool false)
  /\ w_self (snd (brain_core.store_memory plain_platform "" (VInt 1) demo_world))
     = w_self demo_world.
Proof.
  apply (invalid_input_absorbed plain_platform (VInt 42) None (VInt 1) demo_world).
  right. reflexivity.
Defined.

Lemma elapsed_nonneg_when_clock_advances_witness :
  0 <= 2000000
  /\ last (w_trace (snd (logging_config.LogContext.with_ plain_platform
                           (logging_config.LogContext.__init__ "op" None)
                           (mret tt) (mret tt) demo_world)))
     = Some (mkLogCall (Named "nia_core") INFO "COMPLETE: op (2.00s)" None).
Proof.
  pose proof (elapsed_nonneg_when_clock_advances plain_platform
                (logging_config.LogContext.__init__ "op" None) (mret tt) (mret tt)
                demo_world) as H.
  vm_compute in H. vm_compute. apply H. discriminate.
Defined.

Lemma think_echoes_prompt_witness :
  fst (brain_core.think plain_platform (VStr "What is machine learning?") None
         demo_world)
  = Return (VStr "Reasoning response to: What is machine learning?")
  /\ contains "What is machine learning?"
       "Reasoning response to: What is machine learning?" = true.
Proof.
  apply (think_echoes_prompt plain_platform "What is machine learning?" None
           demo_world).
  - discriminate.
  - reflexivity.
Defined.

Lemma think_not_atomic_on_failure_witness :
  fst (brain_core.think plain_platform (VStr "error") (Some {["topic" := VStr "ml"]})
         demo_world)
  = Raise (mkExn RuntimeError "Simulated reasoning error")
  /\ brain_core.memory_context
       (w_self (snd (brain_core.think plain_platform (VStr "error")
                       (Some {["topic" := VStr "ml"]}) demo_world))) !! "topic"
     = Some (VStr "ml").
Proof.
  destruct (think_not_atomic_on_failure plain_platform "error"
              {["topic" := VStr "ml"]} demo_world) as (Hr & _ & Hk & _).
  - reflexivity.
  - split; [exact Hr|]. apply Hk. apply lookup_singleton_eq.
Defined.

(** C8 as stated fails: with the wall clock set back by two seconds between
    entry and exit, the scope reports an elapsed time of -2.00 s. *)
Lemma elapsed_negative_when_clock_set_back :
  let out := logging_config.LogContext.with_ plain_platform
               (logging_config.LogContext.__init__ "op" None)
               (mret tt) (mret tt) set_back_world in
  fst out = Return tt
  /\ w_trace (snd out)
     = [mkLogCall (Named "nia_core") INFO "START: op" None;
        mkLogCall (Named "nia_core") INFO "COMPLETE: op (-2.00s)" None]
  /\ last (w_trace (snd out))
     = Some (terminal_call (Named "nia_core") "op" (-2000000) (Return tt))
  /\ -2000000 < 0.
Proof. vm_compute. repeat split. Qed.

(** ** How logger calls reach the sinks *)

Lemma get_write r d line st : get r (write d line st) = get r st.
Proof. by destruct d, r. Qed.

Lemma root_write d line st : root (write d line st) = root st.
Proof. by destruct d. Qed.

Lemma get_offers py rec r hs st :
  get r (fold_left (fun s h => offer py rec h s) hs st) = get r st.
Proof.
  revert st. induction hs as [|h hs IH]; intros st; simpl; [done|].
  rewrite IH. unfold offer. destruct (Z.leb _ _); [apply get_write|done].
Qed.

Lemma root_offers py rec hs st :
  root (fold_left (fun s h => offer py rec h s) hs st) = root st.
Proof.
  revert st. induction hs as [|h hs IH]; intros st; simpl; [done|].
  rewrite IH. unfold offer. destruct (Z.leb _ _); [apply root_write|done].
Qed.

(** Delivering a record changes what has been written, never the loggers. *)
Lemma get_callHandlers py lg rec r st : get r (callHandlers py lg rec st) = get r st.
Proof.
  unfold callHandlers. destruct (reachable_handlers lg st).
  - unfold offer. destruct (Z.leb _ _); [apply get_write|done].
  - apply get_offers.
Qed.

Lemma root_callHandlers py lg rec st : root (callHandlers py lg rec st) = root st.
Proof.
  unfold callHandlers. destruct (reachable_handlers lg st).
  - unfold offer. destruct (Z.leb _ _); [apply root_write|done].
  - apply root_offers.
Qed.

Lemma configured_callHandlers py lg rec st :
  configured st -> configured (callHandlers py lg rec st).
Proof.
  intros [Hg Hr]. split; [by rewrite get_callHandlers|by rewrite root_callHandlers].
Qed.

Lemma configured_imported : configured logging_config.imported.
Proof. split; reflexivity. Qed.

Lemma console_format py t lg lvl file line msg exc :
  format py (h_formatter logging_config.console_handler)
    (mkLogRecord t (ref_name lg) lvl file line msg exc)
  = console_line py (mkLogCall lg lvl msg exc).
Proof. reflexivity. Qed.

Lemma nia_handlers_levels h lvl :
  h ∈ nia_handlers -> Z.leb DEBUG lvl = false -> Z.leb (h_level h) lvl = false.
Proof.
  unfold nia_handlers. rewrite !elem_of_cons, elem_of_nil. unfold DEBUG.
  intros [->|[->|[->|[->|[]]]]] Hlvl; simpl; unfold ERROR, INFO, WARNING; lia.
Qed.

Section Logged.

Variable py : Platform.
Context {S : Type}.
Implicit Types (w : World S).

Lemma logged_refl w : logged py w w [].
Proof.
  split; [by rewrite app_nil_r|]. split; [done|]. intros Hc.
  split; [done|]. split; [by rewrite app_nil_r|]. intros h _.
  exists []. by rewrite app_nil_r.
Qed.

Lemma logged_trans w w1 w2 c1 c2 :
  logged py w w1 c1 -> logged py w1 w2 c2 -> logged py w w2 (c1 ++ c2).
Proof.
  intros (Ht1 & Hk1 & H1) (Ht2 & Hk2 & H2).
  split; [by rewrite Ht2, Ht1, app_assoc|]. split; [by rewrite Hk2|].
  intros Hc. destruct (H1 Hc) as (Hc1 & He1 & Hn1).
  destruct (H2 Hc1) as (Hc2 & He2 & Hn2).
  split; [done|]. split.
  - rewrite He2, He1. unfold console_view. by rewrite flat_map_app, app_assoc.
  - intros h Hh. destruct (Hn1 h Hh) as (l1 & Ho1 & Hl1).
    destruct (Hn2 h Hh) as (l2 & Ho2 & Hl2).
    exists (l1 ++ l2). split; [by rewrite Ho2, Ho1, app_assoc|].
    unfold sink_count in *. rewrite filter_app, !length_app. lia.
Qed.

Lemma logged_eq w w' c c' : logged py w w' c -> c = c' -> logged py w w' c'.
Proof. by intros H <-. Qed.

(** Changing the application state or the number of clock readings taken
    changes nothing of what has been logged. *)
Lemma logged_frame w w1 c ticks self :
  logged py w w1 c ->
  logged py w (mkWorld (w_logging w1) (w_clock w1) ticks (w_trace w1) self) c.
Proof. intros H. exact H. Qed.

Lemma logged_log_at lvl origin msg exc w :
  logged py w (log_at py brain_core.logger lvl origin msg exc w)
    [mkLogCall brain_core.logger lvl msg exc].
Proof.
  split; [apply trace_log_at|]. split.
  { unfold log_at. by destruct (isEnabledFor _ _ _). }
  intros Hc. pose proof Hc as [Hg Hr].
  unfold log_at. rewrite (isEnabledFor_configured _ _ _ Hg).
  destruct (Z.leb DEBUG lvl) eqn:Hlvl; simpl.
  - split; [by apply configured_callHandlers|].
    assert (reachable_handlers brain_core.logger (w_logging w) = nia_handlers) as Hreach
      by (apply reachable_configured; [by rewrite Hg|by right]).
    split.
    + change (stderr ?st) with (output ToStderr st).
      rewrite output_callHandlers by (by rewrite Hreach). rewrite Hreach.
      change ToStderr with (h_dest logging_config.console_handler).
      rewrite delivered_nia_handlers by (unfold nia_handlers; set_solver).
      simpl. rewrite app_nil_r. by destruct (Z.leb WARNING lvl).
    + intros h Hh. eexists. split.
      * rewrite output_callHandlers by (by rewrite Hreach).
        rewrite Hreach, delivered_nia_handlers by done. reflexivity.
      * unfold sink_count. rewrite filter_cons, filter_nil.
        simpl. destruct (Z.leb (h_level h) lvl) eqn:E; case_decide; simpl; try done.
  - split; [done|]. split.
    + simpl. assert (Z.leb WARNING lvl = false) as ->; [|by rewrite app_nil_r].
      apply (nia_handlers_levels logging_config.console_handler);
        [unfold nia_handlers; set_solver|done].
    + intros h Hh. exists []. split; [by rewrite app_nil_r|].
      unfold sink_count. rewrite filter_cons, filter_nil. simpl.
      rewrite (nia_handlers_levels h lvl Hh Hlvl). by case_decide.
Qed.

Lemma logged_entered op w :
  logged py w
    (entered py (logging_config.LogContext.__init__ op (Some brain_core.logger)) w)
    [start_call brain_core.logger op].
Proof.
  unfold entered. simpl.
  eapply logged_eq; [eapply logged_trans; [|apply logged_log_at]|].
  - apply (logged_frame w w [] _ _ (logged_refl w)).
  - reflexivity.
Qed.

Lemma logged_exited {A} op t0 (r : Outcome A) w :
  logged py w
    (exited py (logging_config.LogContext.__init__ op (Some brain_core.logger)) t0 r w)
    [terminal_call brain_core.logger op (w_clock w (w_ticks w) - t0) r].
Proof.
  destruct r; unfold exited; simpl.
  - eapply logged_eq; [eapply logged_trans; [|apply logged_log_at]|].
    + apply (logged_frame w w [] _ _ (logged_refl w)).
    + reflexivity.
  - eapply logged_eq; [eapply logged_trans; [|apply logged_log_at]|].
    + apply (logged_frame w w [] _ _ (logged_refl w)).
    + reflexivity.
Qed.

(** A scope of the brain around a body that made the calls [calls]. *)
Lemma logged_scope {A} op (body rest : M S A) w r w2 calls :
  body (entered py (logging_config.LogContext.__init__ op (Some brain_core.logger)) w)
  = (r, w2) ->
  logged py
    (entered py (logging_config.LogContext.__init__ op (Some brain_core.logger)) w)
    w2 calls ->
  exists d w',
    logging_config.LogContext.with_ py
      (logging_config.LogContext.__init__ op (Some brain_core.logger)) body rest w
    = (r, w')
    /\ w_self w' = w_self w2
    /\ logged py w w'
         (start_call brain_core.logger op :: calls
          ++ [terminal_call brain_core.logger op d r]).
Proof.
  intros Hbody Hlog. eexists _, _. rewrite with_run, Hbody. simpl.
  split; [reflexivity|]. split; [apply self_exited|].
  eapply logged_eq.
  - eapply logged_trans; [eapply logged_trans; [apply logged_entered|exact Hlog]|].
    apply logged_exited.
  - simpl. reflexivity.
Qed.

End Logged.

(** ** What each operation of the brain does, in full *)

Section BrainEffects.

Variable py : Platform.
Implicit Types (w : World brain_core.NiaBrainCore).

#[local] Arguments log_at : simpl never.
#[local] Arguments entered : simpl never.
#[local] Arguments exited : simpl never.
#[local] Arguments brain_core._process_reasoning : simpl never.
#[local] Arguments brain_core.think : simpl never.
#[local] Arguments brain_core.store_memory : simpl never.
#[local] Arguments brain_core.recall_memory : simpl never.
#[local] Arguments brain_core.__init__ : simpl never.
#[local] Arguments brain_core.get_conversation_history : simpl never.
#[local] Arguments insert : simpl never.
#[local] Arguments singletonM : simpl never.
#[local] Arguments lookup : simpl never.
#[local] Arguments empty : simpl never.

Ltac run :=
  unfold try_except, dispatch, mbind, M_bind, mret, M_ret, raise, info, debug,
    warning, error_exc, critical_exc, log, get_self, set_self, datetime_now,
    read_clock, brain_core.memory_setitem, brain_core.memory_update,
    brain_core.history_append, brain_core.as_str, brain_core.len;
  simpl.

Ltac logged_steps :=
  repeat match goal with
  | H : logged _ ?W ?X _ |- logged _ _ ?X _ =>
      eapply logged_trans; [|exact H]
  | |- logged _ _ (log_at _ _ _ _ _ _ _) _ =>
      eapply logged_trans; [|apply logged_log_at]
  | |- logged _ _ (exited _ _ _ _ _) _ =>
      eapply logged_trans; [|apply logged_exited]
  | |- logged _ _ (entered _ _ _) _ =>
      eapply logged_trans; [|apply logged_entered]
  | |- logged _ _ (mkWorld (w_logging ?X) _ _ _ _) _ =>
      eapply (logged_frame py _ X)
  | |- logged _ ?X ?X _ => apply logged_refl
  end.

Ltac proj :=
  rewrite ?self_exited, ?self_log_at, ?self_entered; simpl.

Ltac finish :=
  split; [reflexivity|]; split;
  [ proj; try reflexivity
  | eapply logged_eq; [logged_steps|simpl; reflexivity] ].

Lemma store_memory_effects k v w :
  k <> "" ->
  exists d w',
    brain_core.store_memory py k v w = (Return (VBool true), w')
    /\ w_self w'
       = brain_core.mkBrain (brain_core.config (w_self w))
           (<[k := v]> (brain_core.memory_context (w_self w)))
           (brain_core.conversation_history (w_self w))
    /\ logged py w w'
         [start_call brain_core.logger ("Brain.store_memory(" +:+ k +:+ ")");
          mkLogCall brain_core.logger INFO
            ("Memory stored: " +:+ k +:+ " = " +:+ type_name v) None;
          terminal_call brain_core.logger ("Brain.store_memory(" +:+ k +:+ ")") d
            (Return (VBool true))].
Proof.
  intros Hk. apply truthy_nonempty in Hk. simpl in Hk.
  unfold brain_core.store_memory. rewrite with_run. run. rewrite Hk. simpl.
  do 2 eexists. finish.
Qed.

Lemma store_memory_empty_effects v w :
  exists d w',
    brain_core.store_memory py "" v w = (Return (VBool false), w')
    /\ w_self w' = w_self w
    /\ logged py w w'
         [start_call brain_core.logger "Brain.store_memory()";
          mkLogCall brain_core.logger ERROR
            "Error storing memory: Memory key cannot be empty"
            (Some (mkExn ValueError "Memory key cannot be empty"));
          terminal_call brain_core.logger "Brain.store_memory()" d
            (Return (VBool false))].
Proof.
  unfold brain_core.store_memory. rewrite with_run. run.
  do 2 eexists. finish.
Qed.

Lemma recall_memory_found_effects k v w :
  brain_core.memory_context (w_self w) !! k = Some v ->
  exists d w',
    brain_core.recall_memory py k w = (Return v, w')
    /\ w_self w' = w_self w
    /\ logged py w w'
         [start_call brain_core.logger ("Brain.recall_memory(" +:+ k +:+ ")");
          mkLogCall brain_core.logger INFO ("Memory recalled: " +:+ k) None;
          terminal_call brain_core.logger ("Brain.recall_memory(" +:+ k +:+ ")") d
            (Return v)].
Proof.
  intros Hk. unfold brain_core.recall_memory. rewrite with_run. run.
  rewrite self_entered, Hk. simpl. do 2 eexists. finish.
Qed.


Lemma process_reasoning_returns_effects p w :
  contains "error" (lower p) = false ->
  exists d w',
    brain_core._process_reasoning py p w
    = (Return (VStr ("Reasoning response to: " +:+ p)), w')
    /\ w_self w' = w_self w
    /\ logged py w w'
         [start_call brain_core.logger "Brain._process_reasoning()";
          mkLogCall brain_core.logger DEBUG
            ("Processed reasoning: "
             +:+ substring 0 50 ("Reasoning response to: " +:+ p) +:+ "...") None;
          terminal_call brain_core.logger "Brain._process_reasoning()" d
            (Return (VStr ("Reasoning response to: " +:+ p)))].
Proof.
  intros Hok. unfold brain_core._process_reasoning. rewrite with_run. run.
  rewrite Hok. simpl. do 2 eexists. finish.
Qed.

Lemma process_reasoning_fails_effects p w :
  contains "error" (lower p) = true ->
  exists d w',
    brain_core._process_reasoning py p w = (Raise simulated_error, w')
    /\ w_self w' = w_self w
    /\ logged py w w'
         [start_call brain_core.logger "Brain._process_reasoning()";
          mkLogCall brain_core.logger ERROR
            "Reasoning processing failed: Simulated reasoning error"
            (Some simulated_error);
          terminal_call (A:=PyVal) brain_core.logger "Brain._process_reasoning()" d
            (Raise simulated_error)].
Proof.
  intros Herr. unfold brain_core._process_reasoning. rewrite with_run. run.
  rewrite Herr. simpl. do 2 eexists. finish.
Qed.

Lemma think_invalid_effects prompt context w :
  truthy prompt = false \/ isinstance_str prompt = false ->
  exists d w',
    brain_core.think py prompt context w = (Return VNone, w')
    /\ w_self w' = w_self w
    /\ logged py w w'
         [start_call brain_core.logger "Brain.think()";
          mkLogCall brain_core.logger WARNING
            "Invalid input for reasoning: Prompt must be a non-empty string" None;
          terminal_call brain_core.logger "Brain.think()" d (Return VNone)].
Proof.
  intros Hbad. apply guard_rejects in Hbad.
  unfold brain_core.think. rewrite with_run. run. rewrite Hbad. simpl.
  do 2 eexists. finish.
Qed.

Lemma think_fails_effects p context w :
  contains "error" (lower p) = true ->
  exists d1 d2 w',
    brain_core.think py (VStr p) context w = (Raise simulated_error, w')
    /\ w_self w'
       = brain_core.mkBrain (brain_core.config (w_self w))
           (merged context (brain_core.memory_context (w_self w)))
           (brain_core.conversation_history (w_self w))
    /\ logged py w w' (think_failure_calls p context d1 d2).
Proof.
  intros Herr.
  pose proof (truthy_nonempty p (error_prompt_nonempty p Herr)) as Hp. simpl in Hp.
  unfold brain_core.think. rewrite with_run. run. rewrite Hp. simpl.
  unfold think_calls, think_failure_calls, think_prologue, merged, context_calls.
  destruct (brain_core.dict_truthy context); simpl;
    match goal with |- context [brain_core._process_reasoning py p ?W] =>
      destruct (process_reasoning_fails_effects p W Herr)
        as (d1 & w1 & Hr1 & Hs1 & Hl1) end;
    rewrite Hr1; simpl; exists d1; do 2 eexists;
    (split; [reflexivity|]); split.
  - proj. rewrite Hs1. proj. by destruct (w_self w).
  - eapply logged_eq; [logged_steps|simpl; reflexivity].
  - proj. rewrite Hs1. proj. by destruct (w_self w).
  - eapply logged_eq; [logged_steps|simpl; reflexivity].
Qed.

Lemma think_returns_effects p context w :
  p <> "" ->
  contains "error" (lower p) = false ->
  exists d1 d2 t w',
    brain_core.think py (VStr p) context w
    = (Return (VStr ("Reasoning response to: " +:+ p)), w')
    /\ w_self w'
       = brain_core.mkBrain (brain_core.config (w_self w))
           (merged context (brain_core.memory_context (w_self w)))
           (brain_core.conversation_history (w_self w) ++ [history_entry py t p])
    /\ (exists n, t = w_clock w n)
    /\ logged py w w' (think_calls p context d1 d2).
Proof.
  intros Hp Hok. apply truthy_nonempty in Hp. simpl in Hp.
  unfold brain_core.think. rewrite with_run. run. rewrite Hp. simpl.
  unfold think_calls, think_failure_calls, think_prologue, merged, context_calls.
  destruct (brain_core.dict_truthy context); simpl;
    match goal with |- context [brain_core._process_reasoning py p ?W] =>
      destruct (process_reasoning_returns_effects p W Hok)
        as (d1 & w1 & Hr1 & Hs1 & Hl1) end;
    rewrite Hr1; simpl; exists d1; do 3 eexists;
    (split; [reflexivity|]); (split; [|split]).
  - proj. rewrite Hs1. proj. reflexivity.
  - exists (w_ticks w1). eassert (logged py w w1 _) as (_ & -> & _) by logged_steps.
    reflexivity.
  - eapply logged_eq; [logged_steps|simpl; reflexivity].
  - proj. rewrite Hs1. proj. reflexivity.
  - exists (w_ticks w1). eassert (logged py w w1 _) as (_ & -> & _) by logged_steps.
    reflexivity.
  - eapply logged_eq; [logged_steps|simpl; reflexivity].
Qed.

Lemma init_effects cfg w :
  exists w',
    brain_core.__init__ py cfg w = (Return tt, w')
    /\ w_self w' = brain_core.mkBrain (default ∅ cfg) ∅ []
    /\ logged py w w'
         [mkLogCall brain_core.logger INFO
            "Nia Brain Core initialized successfully" None].
Proof.
  unfold brain_core.__init__. run. eexists. finish.
Qed.

Lemma get_conversation_history_effects w :
  exists w',
    brain_core.get_conversation_history py w
    = (Return (brain_core.conversation_history (w_self w)), w')
    /\ w_self w' = w_self w
    /\ logged py w w'
         [mkLogCall brain_core.logger INFO
            ("Returning conversation history ("
             +:+ pretty (length (brain_core.conversation_history (w_self w)))
             +:+ " entries)") None].
Proof.
  unfold brain_core.get_conversation_history. run. eexists. finish.
Qed.

Lemma main_effects w :
  exists d1 d2 d3 d4 t w',
    brain_core.main py w = (Return VNone, w')
    /\ w_self w'
       = brain_core.mkBrain {["mode" := VStr "production"]}
           {["project_name" := VStr "Nia LeSane"]}
           [history_entry py t "What is machine learning?"]
    /\ logged py w w' (main_calls d1 d2 d3 d4).
Proof.
  unfold brain_core.main.
  unfold try_except, dispatch, mbind, M_bind, mret, M_ret, raise, info,
    critical_exc, log.
  match goal with |- context [brain_core.__init__ py ?c ?W] =>
    destruct (init_effects c W) as (w0 & Hr0 & Hs0 & Hl0) end.
  rewrite Hr0. cbn beta iota.
  destruct (think_returns_effects "What is machine learning?" None w0)
    as (d1 & d2 & t & w1 & Hr1 & Hs1 & _ & Hl1); [discriminate|reflexivity|].
  rewrite Hr1. cbn beta iota.
  match goal with |- context [brain_core.store_memory py ?k ?v ?W] =>
    destruct (store_memory_effects k v W) as (d3 & w2 & Hr2 & Hs2 & Hl2);
      [discriminate|] end.
  rewrite Hr2. cbn beta iota.
  destruct (recall_memory_found_effects "project_name" (VStr "Nia LeSane") w2)
    as (d4 & w3 & Hr3 & Hs3 & Hl3).
  { rewrite Hs2. cbn [brain_core.memory_context]. apply lookup_insert_eq. }
  rewrite Hr3. cbn beta iota.
  exists d1, d2, d3, d4, t. eexists. split; [reflexivity|]. split.
  - rewrite !self_log_at, Hs3, Hs2, self_log_at, Hs1, Hs0.
    unfold merged.
    cbn [brain_core.config brain_core.memory_context
         brain_core.conversation_history brain_core.dict_truthy app default].
    rewrite insert_empty. reflexivity.
  - eapply logged_eq; [logged_steps|]. reflexivity.
Qed.

End BrainEffects.

(** ** More string facts *)

Lemma length_append s1 s2 :
  String.length (s1 +:+ s2) = (String.length s1 + String.length s2)%nat.
Proof. induction s1 as [|c s1 IH]; simpl; [done|]. by rewrite IH. Qed.

Lemma length_substring n s :
  String.length (substring 0 n s) = Nat.min n (String.length s).
Proof.
  revert s. induction n as [|n IH]; intros [|c s]; simpl; try done.
  by rewrite IH.
Qed.

Lemma lower_append s1 s2 : lower (s1 +:+ s2) = lower s1 +:+ lower s2.
Proof. induction s1 as [|c s1 IH]; simpl; [done|]. by rewrite IH. Qed.

Lemma prefix_append s post : String.prefix s (s +:+ post) = true.
Proof.
  induction s as [|c s IH]; simpl; [by destruct post|].
  destruct (ascii_dec c c); [exact IH|done].
Qed.

Lemma contains_middle pre s post : contains s (pre +:+ s +:+ post) = true.
Proof.
  induction pre as [|c pre IH].
  - change ("" +:+ s +:+ post) with (s +:+ post).
    destruct (s +:+ post) eqn:E; cbn [contains]; rewrite <- E, prefix_append; done.
  - change (String c pre +:+ s +:+ post) with (String c (pre +:+ s +:+ post)).
    cbn [contains]. rewrite IH. apply orb_true_r.
Qed.

Lemma prompt_cases prompt :
  (truthy prompt = false \/ isinstance_str prompt = false)
  \/ exists p, prompt = VStr p /\ p <> "".
Proof.
  destruct prompt as [|b|z|p]; try (left; right; reflexivity).
  destruct (decide (p = "")) as [->|Hp]; [left; left; reflexivity|].
  right. by exists p.
Qed.

(** ** Further properties of the memory *)

(** X1. Storing under one key leaves every other key, the configuration and
    the conversation history as they were. *)
Theorem store_memory_keeps_the_rest
    (py : Platform) (k k' : string) (v : PyVal)
    (w : World brain_core.NiaBrainCore) :
  k <> "" ->
  k' <> k ->
  let w' := snd (brain_core.store_memory py k v w) in
  fst (brain_core.recall_memory py k' w') = fst (brain_core.recall_memory py k' w)
  /\ brain_core.memory_context (w_self w') !! k'
     = brain_core.memory_context (w_self w) !! k'
  /\ brain_core.config (w_self w') = brain_core.config (w_self w)
  /\ brain_core.conversation_history (w_self w')
     = brain_core.conversation_history (w_self w).
Proof.
  intros Hk Hne w'. subst w'.
  destruct (store_memory_effects py k v w Hk) as (d & w' & -> & Hs & _). simpl.
  assert (brain_core.memory_context (w_self w') !! k'
          = brain_core.memory_context (w_self w) !! k') as Hm.
  { rewrite Hs. simpl. by apply lookup_insert_ne. }
  destruct (recall_memory_lookup py k' w') as [-> _].
  destruct (recall_memory_lookup py k' w) as [-> _].
  rewrite Hm, Hs. done.
Qed.

(** X2. The last value stored under a key is the one recalled, and storing
    twice leaves the memory as storing the second value alone would. *)
Theorem store_memory_last_write_wins
    (py : Platform) (k : string) (v1 v2 : PyVal)
    (w : World brain_core.NiaBrainCore) :
  k <> "" ->
  let w1 := snd (brain_core.store_memory py k v1 w) in
  let w2 := snd (brain_core.store_memory py k v2 w1) in
  fst (brain_core.recall_memory py k w2) = Return v2
  /\ brain_core.memory_context (w_self w2)
     = brain_core.memory_context (w_self (snd (brain_core.store_memory py k v2 w))).
Proof.
  intros Hk w1 w2. subst w1 w2.
  destruct (store_memory_effects py k v1 w Hk) as (d1 & w1 & -> & Hs1 & _). simpl.
  destruct (store_memory_effects py k v2 w1 Hk) as (d2 & w2 & -> & Hs2 & _). simpl.
  destruct (store_memory_effects py k v2 w Hk) as (d3 & w3 & -> & Hs3 & _). simpl.
  destruct (recall_memory_lookup py k w2) as [-> _].
  rewrite Hs2, Hs3, Hs1. simpl. rewrite lookup_insert_eq, insert_insert_eq. done.
Qed.

(** X3. A stored [None] cannot be told from a missing key by its recalled
    value: the key is in the memory, yet [recall_memory] returns what it
    returns for a key that is not there. *)
Theorem stored_none_reads_as_missing
    (py : Platform) (k : string) (w w0 : World brain_core.NiaBrainCore) :
  k <> "" ->
  brain_core.memory_context (w_self w0) !! k = None ->
  let w' := snd (brain_core.store_memory py k VNone w) in
  brain_core.memory_context (w_self w') !! k = Some VNone
  /\ fst (brain_core.recall_memory py k w') = fst (brain_core.recall_memory py k w0).
Proof.
  intros Hk Habsent w'. subst w'.
  destruct (store_memory_effects py k VNone w Hk) as (d & w' & -> & Hs & _). simpl.
  destruct (recall_memory_lookup py k w') as [-> _].
  destruct (recall_memory_lookup py k w0) as [-> _].
  rewrite Hs, Habsent. simpl. by rewrite lookup_insert_eq.
Qed.

(** X4. No operation forgets a key: whatever is in the memory before a call
    of [think], [store_memory] or [recall_memory], with any arguments, is
    still a key of the memory after it. *)
Theorem memory_keys_are_kept
    (py : Platform) (prompt : PyVal) (context : option (gmap string PyVal))
    (k0 k : string) (v : PyVal) (w : World brain_core.NiaBrainCore) :
  is_Some (brain_core.memory_context (w_self w) !! k0) ->
  is_Some (brain_core.memory_context
             (w_self (snd (brain_core.think py prompt context w))) !! k0)
  /\ is_Some (brain_core.memory_context
                (w_self (snd (brain_core.store_memory py k v w))) !! k0)
  /\ is_Some (brain_core.memory_context
                (w_self (snd (brain_core.recall_memory py k w))) !! k0).
Proof.
  intros Hin.
  assert (forall c, is_Some (merged c (brain_core.memory_context (w_self w)) !! k0))
    as Hmerged.
  { intros c. unfold merged. destruct (brain_core.dict_truthy c); [|done].
    rewrite lookup_union. destruct Hin as [x ->].
    destruct (default ∅ c !! k0); simpl; eauto. }
  split; [|split].
  - destruct (prompt_cases prompt) as [Hbad|(p & -> & Hp)].
    + destruct (think_invalid_effects py prompt context w Hbad)
        as (d & w' & Hr & Hs & _). rewrite Hr. simpl. by rewrite Hs.
    + destruct (contains "error" (lower p)) eqn:E.
      * destruct (think_fails_effects py p context w E)
          as (d1 & d2 & w' & Hr & Hs & _). rewrite Hr. simpl. rewrite Hs.
        apply Hmerged.
      * destruct (think_returns_effects py p context w Hp E)
          as (d1 & d2 & t & w' & Hr & Hs & _). rewrite Hr. simpl. rewrite Hs.
        apply Hmerged.
  - destruct (decide (k = "")) as [->|Hk].
    + destruct (store_memory_empty_effects py v w) as (d & w' & Hr & Hs & _).
      rewrite Hr. simpl. by rewrite Hs.
    + destruct (store_memory_effects py k v w Hk) as (d & w' & Hr & Hs & _).
      rewrite Hr. simpl. rewrite Hs. simpl.
      destruct (decide (k = k0)) as [->|Hne].
      * rewrite lookup_insert_eq. eauto.
      * by rewrite lookup_insert_ne.
  - by destruct (recall_memory_lookup py k w) as [_ ->].
Qed.

(** ** Further properties of [think] *)

Lemma merged_lookup (ctx m : gmap string PyVal) (k : string) :
  merged (Some ctx) m !! k
  = match ctx !! k with Some v => Some v | None => m !! k end.
Proof.
  unfold merged. simpl. destruct (Nat.eqb (size ctx) 0) eqn:E; simpl.
  - apply Nat.eqb_eq in E. apply map_size_empty_iff in E. subst ctx.
    by rewrite lookup_empty.
  - rewrite lookup_union. destruct (ctx !! k), (m !! k); done.
Qed.

(** X5. A prompt that is processed to the end is recorded: the history gains
    one entry at its end, holding the prompt verbatim, the response and the
    ISO form of a reading of the clock; the context, if any, is merged into
    the memory and the configuration is untouched. *)
Theorem think_records_the_exchange
    (py : Platform) (p : string) (context : option (gmap string PyVal))
    (w : World brain_core.NiaBrainCore) :
  p <> "" ->
  contains "error" (lower p) = false ->
  exists n : nat,
    w_self (snd (brain_core.think py (VStr p) context w))
    = brain_core.mkBrain (brain_core.config (w_self w))
        (if brain_core.dict_truthy context
         then default ∅ context ∪ brain_core.memory_context (w_self w)
         else brain_core.memory_context (w_self w))
        (brain_core.conversation_history (w_self w)
         ++ [brain_core.mkEntry (isoformat py (w_clock w n)) p
               (VStr ("Reasoning response to: " +:+ p))]).
Proof.
  intros Hp Hok.
  destruct (think_returns_effects py p context w Hp Hok)
    as (d1 & d2 & t & w' & Hr & Hs & (n & ->) & _).
  exists n. rewrite Hr. simpl. exact Hs.
Qed.

(** X6. The conversation history only grows, and by at most one entry per
    call: whatever the prompt and the context, the old history is the start
    of the new one; an entry is added exactly when [think] returns a
    response, and it then carries the prompt and that response. *)
Theorem history_only_grows
    (py : Platform) (prompt : PyVal) (context : option (gmap string PyVal))
    (w : World brain_core.NiaBrainCore) :
  exists added,
    brain_core.conversation_history
      (w_self (snd (brain_core.think py prompt context w)))
    = brain_core.conversation_history (w_self w) ++ added
    /\ match fst (brain_core.think py prompt context w) with
       | Return (VStr r) =>
           exists e, added = [e]
                     /\ VStr (brain_core.prompt e) = prompt
                     /\ brain_core.response e = VStr r
       | _ => added = []
       end.
Proof.
  destruct (prompt_cases prompt) as [Hbad|(p & -> & Hp)].
  - destruct (think_invalid_effects py prompt context w Hbad)
      as (d & w' & Hr & Hs & _).
    exists []. rewrite Hr. simpl. rewrite Hs. by rewrite app_nil_r.
  - destruct (contains "error" (lower p)) eqn:E.
    + destruct (think_fails_effects py p context w E)
        as (d1 & d2 & w' & Hr & Hs & _).
      exists []. rewrite Hr. simpl. rewrite Hs. simpl. by rewrite app_nil_r.
    + destruct (think_returns_effects py p context w Hp E)
        as (d1 & d2 & t & w' & Hr & Hs & _).
      exists [history_entry py t p]. rewrite Hr. simpl. rewrite Hs. simpl.
      split; [done|]. by exists (history_entry py t p).
Qed.

(** X7. After [think] has taken a usable prompt with a context, recalling a
    key gives the value the context has for it, and otherwise the value the
    memory had; this holds whether the reasoning then succeeded or failed. *)
Theorem context_overrides_memory
    (py : Platform) (p : string) (ctx : gmap string PyVal) (k : string)
    (w : World brain_core.NiaBrainCore) :
  p <> "" ->
  fst (brain_core.recall_memory py k
         (snd (brain_core.think py (VStr p) (Some ctx) w)))
  = Return (default VNone
              match ctx !! k with
              | Some v => Some v
              | None => brain_core.memory_context (w_self w) !! k
              end).
Proof.
  intros Hp.
  destruct (recall_memory_lookup py k
              (snd (brain_core.think py (VStr p) (Some ctx) w))) as [-> _].
  destruct (contains "error" (lower p)) eqn:E.
  - destruct (think_fails_effects py p (Some ctx) w E)
      as (d1 & d2 & w' & Hr & Hs & _).
    rewrite Hr. simpl. rewrite Hs. simpl. by rewrite merged_lookup.
  - destruct (think_returns_effects py p (Some ctx) w Hp E)
      as (d1 & d2 & t & w' & Hr & Hs & _).
    rewrite Hr. simpl. rewrite Hs. simpl. by rewrite merged_lookup.
Qed.

(** X8. The trigger is case-insensitive: a prompt that contains any spelling
    of "error" (a piece whose lower-case form is "error"), anywhere, makes
    [think] raise the simulated error. *)
Theorem error_trigger_ignores_case
    (py : Platform) (pre u post : string) (context : option (gmap string PyVal))
    (w : World brain_core.NiaBrainCore) :
  lower u = "error" ->
  fst (brain_core.think py (VStr (pre +:+ u +:+ post)) context w)
  = Raise (mkExn RuntimeError "Simulated reasoning error").
Proof.
  intros Hu.
  assert (contains "error" (lower (pre +:+ u +:+ post)) = true) as Herr.
  { rewrite !lower_append, Hu. apply contains_middle. }
  destruct (think_fails_effects py _ context w Herr) as (d1 & d2 & w' & -> & _).
  reflexivity.
Qed.

(** X9. The only exception that leaves [think] is the simulated
    RuntimeError, and it leaves only for a string prompt that contains
    "error" in some letter case; no ValueError or TypeError reaches the
    caller. *)
Theorem only_the_simulated_error_escapes
    (py : Platform) (prompt : PyVal) (context : option (gmap string PyVal))
    (w : World brain_core.NiaBrainCore) (e : Exn) :
  fst (brain_core.think py prompt context w) = Raise e ->
  e = mkExn RuntimeError "Simulated reasoning error"
  /\ exists p, prompt = VStr p /\ contains "error" (lower p) = true.
Proof.
  destruct (prompt_cases prompt) as [Hbad|(p & -> & Hp)].
  - destruct (think_invalid_effects py prompt context w Hbad) as (d & w' & -> & _).
    discriminate.
  - destruct (contains "error" (lower p)) eqn:E.
    + destruct (think_fails_effects py p context w E) as (d1 & d2 & w' & -> & _).
      simpl. intros [= <-]. split; [done|]. by exists p.
    + destruct (think_returns_effects py p context w Hp E)
        as (d1 & d2 & t & w' & -> & _).
      discriminate.
Qed.

(** X10. The memory operations, the history accessor, the constructor and
    [main] never raise: [store_memory] returns [True] exactly when the key
    is non-empty, [recall_memory] returns the stored value or [None],
    [get_conversation_history] returns the history, [main] returns. *)
Theorem brain_operations_never_raise
    (py : Platform) (k : string) (v : PyVal)
    (cfg : option (gmap string PyVal)) (w : World brain_core.NiaBrainCore) :
  fst (brain_core.store_memory py k v w) = Return (VBool (negb (String.eqb k "")))
  /\ fst (brain_core.recall_memory py k w)
     = Return (default VNone (brain_core.memory_context (w_self w) !! k))
  /\ fst (brain_core.get_conversation_history py w)
     = Return (brain_core.conversation_history (w_self w))
  /\ fst (brain_core.__init__ py cfg w) = Return tt
  /\ fst (brain_core.main py w) = Return VNone.
Proof.
  split; [|split; [|split; [|split]]].
  - destruct (decide (k = "")) as [->|Hk].
    + by destruct (store_memory_empty_effects py v w) as (d & w' & -> & _).
    + destruct (store_memory_effects py k v w Hk) as (d & w' & -> & _).
      apply truthy_nonempty in Hk. simpl in Hk. by rewrite Hk.
  - by destruct (recall_memory_lookup py k w) as [-> _].
  - by destruct (get_conversation_history_effects py w) as (w' & -> & _).
  - by destruct (init_effects py cfg w) as (w' & -> & _).
  - by destruct (main_effects py w) as (d1 & d2 & d3 & d4 & t & w' & -> & _).
Qed.

(** X11. [think] logs at most the first 100 characters of a usable prompt:
    its second logger call is "Processing prompt: ", the prompt cut at 100
    characters, and "...", whatever happens afterwards. *)
Theorem prompt_is_cut_in_the_log
    (py : Platform) (p : string) (context : option (gmap string PyVal))
    (w : World brain_core.NiaBrainCore) :
  p <> "" ->
  exists calls,
    w_trace (snd (brain_core.think py (VStr p) context w)) = w_trace w ++ calls
    /\ calls !! 1%nat
       = Some (mkLogCall brain_core.logger INFO
                 ("Processing prompt: " +:+ substring 0 100 p +:+ "...") None)
    /\ String.length ("Processing prompt: " +:+ substring 0 100 p +:+ "...")
       = (22 + Nat.min 100 (String.length p))%nat.
Proof.
  intros Hp.
  assert (String.length ("Processing prompt: " +:+ substring 0 100 p +:+ "...")
          = (22 + Nat.min 100 (String.length p))%nat) as Hlen.
  { rewrite !length_append, length_substring. simpl. lia. }
  destruct (contains "error" (lower p)) eqn:E.
  - destruct (think_fails_effects py p context w E)
      as (d1 & d2 & w' & Hr & _ & Ht & _).
    eexists. rewrite Hr. simpl. split; [exact Ht|]. split; [reflexivity|exact Hlen].
  - destruct (think_returns_effects py p context w Hp E)
      as (d1 & d2 & t & w' & Hr & _ & _ & Ht & _).
    eexists. rewrite Hr. simpl. split; [exact Ht|]. split; [reflexivity|exact Hlen].
Qed.

(** X12. What [get_conversation_history] returns after a processed prompt is
    the earlier history followed by the entry of that prompt; the accessor
    itself changes nothing of the brain. *)
Theorem history_is_returned_in_order
    (py : Platform) (p : string) (context : option (gmap string PyVal))
    (w : World brain_core.NiaBrainCore) :
  p <> "" ->
  contains "error" (lower p) = false ->
  let w' := snd (brain_core.think py (VStr p) context w) in
  exists n : nat,
    fst (brain_core.get_conversation_history py w')
    = Return (brain_core.conversation_history (w_self w)
              ++ [brain_core.mkEntry (isoformat py (w_clock w n)) p
                    (VStr ("Reasoning response to: " +:+ p))])
    /\ w_self (snd (brain_core.get_conversation_history py w')) = w_self w'.
Proof.
  intros Hp Hok w'. subst w'.
  destruct (think_returns_effects py p context w Hp Hok)
    as (d1 & d2 & t & w' & Hr & Hs & (n & ->) & _).
  rewrite Hr. cbn [snd]. exists n.
  destruct (get_conversation_history_effects py w') as (w2 & -> & Hs2 & _).
  cbn [fst snd]. rewrite Hs2, Hs. done.
Qed.

(** X13. Constructing the brain starts from nothing, whatever was there:
    the configuration is the given one (empty when none is given), every
    key recalls as [None] and the history is empty. *)
Theorem init_starts_empty
    (py : Platform) (cfg : option (gmap string PyVal)) (k : string)
    (w : World brain_core.NiaBrainCore) :
  let w' := snd (brain_core.__init__ py cfg w) in
  brain_core.config (w_self w') = default ∅ cfg
  /\ fst (brain_core.recall_memory py k w') = Return VNone
  /\ fst (brain_core.get_conversation_history py w') = Return [].
Proof.
  intros w'. subst w'.
  destruct (init_effects py cfg w) as (w' & -> & Hs & _). cbn [snd].
  destruct (recall_memory_lookup py k w') as [-> _].
  destruct (get_conversation_history_effects py w') as (w2 & -> & _).
  rewrite Hs. cbn [fst brain_core.config brain_core.memory_context
                   brain_core.conversation_history].
  by rewrite lookup_empty.
Qed.

(** X14. An error that an operation absorbs is not reported as a failure by
    its scope: [think] on an unusable prompt logs a WARNING and
    [store_memory] on the empty key logs an ERROR, and in both the scope
    then closes with COMPLETE at INFO, not with FAILED. *)
Theorem absorbed_errors_close_as_complete
    (py : Platform) (prompt : PyVal) (context : option (gmap string PyVal))
    (v : PyVal) (w : World brain_core.NiaBrainCore) :
  truthy prompt = false \/ isinstance_str prompt = false ->
  exists d1 d2 : Z,
    w_trace (snd (brain_core.think py prompt context w))
    = w_trace w ++
      [mkLogCall brain_core.logger INFO "START: Brain.think()" None;
       mkLogCall brain_core.logger WARNING
         "Invalid input for reasoning: Prompt must be a non-empty string" None;
       mkLogCall brain_core.logger INFO
         (logging_config.LogContext.complete_msg "Brain.think()" d1) None]
    /\ w_trace (snd (brain_core.store_memory py "" v w))
       = w_trace w ++
         [mkLogCall brain_core.logger INFO "START: Brain.store_memory()" None;
          mkLogCall brain_core.logger ERROR
            "Error storing memory: Memory key cannot be empty"
            (Some (mkExn ValueError "Memory key cannot be empty"));
          mkLogCall brain_core.logger INFO
            (logging_config.LogContext.complete_msg "Brain.store_memory()" d2)
            None].
Proof.
  intros Hbad.
  destruct (think_invalid_effects py prompt context w Hbad)
    as (d1 & w1 & Hr1 & _ & Ht1 & _).
  destruct (store_memory_empty_effects py v w) as (d2 & w2 & Hr2 & _ & Ht2 & _).
  exists d1, d2. rewrite Hr1, Hr2. simpl. by rewrite Ht1, Ht2.
Qed.

(** ** What reaches the console and the log files *)














(** ** Further properties of [setup_logging] *)

Lemma output_put d r l st : output d (put r l st) = output d st.
Proof. by destruct d, r. Qed.

Lemma output_open_handler d h st : output d (open_handler h st) = output d st.
Proof.
  unfold open_handler. destruct (h_dest h) as [p|]; [|done].
  destruct d as [q|]; [|done]. simpl.
  destruct (decide (p = q)) as [->|Hne].
  - by rewrite lookup_insert_eq.
  - by rewrite lookup_insert_ne.
Qed.

Lemma output_getLogger d n st : output d (snd (getLogger n st)) = output d st.
Proof.
  unfold getLogger. destruct (_ || _); [done|].
  by destruct (loggerDict st !! n), d.
Qed.

Lemma get_put_ne r r' l st : r <> r' -> get r' (put r l st) = get r' st.
Proof.
  intros Hne. destruct r as [|n], r' as [|m]; simpl; try done.
  rewrite lookup_insert_ne; [done|congruence].
Qed.

Lemma get_getLogger_ne n r' st :
  r' <> fst (getLogger n st) -> get r' (snd (getLogger n st)) = get r' st.
Proof.
  unfold getLogger. destruct (_ || _); [done|].
  destruct (loggerDict st !! n) eqn:E; simpl; [done|].
  intros Hne. destruct r' as [|m]; simpl; [done|].
  rewrite lookup_insert_ne; [done|congruence].
Qed.

Lemma files_put r l st : files (put r l st) = files st.
Proof. by destruct r. Qed.

Lemma opened_open_handler p h st :
  h_dest h = ToFile p \/ is_Some (files st !! p) ->
  is_Some (files (open_handler h st) !! p).
Proof.
  unfold open_handler. intros [Hd|Hin].
  - rewrite Hd. simpl. rewrite lookup_insert_eq. eauto.
  - destruct (h_dest h) as [q|]; [|done]. simpl.
    destruct (decide (q = p)) as [->|Hne].
    + rewrite lookup_insert_eq. eauto.
    + by rewrite lookup_insert_ne.
Qed.

Lemma setup_logging_frame (n : string) (st : State) :
  let lg := fst (logging_config.setup_logging n st) in
  let st' := snd (logging_config.setup_logging n st) in
  (forall d, output d st' = output d st)
  /\ (forall r', r' <> lg -> get r' st' = get r' st)
  /\ (handlers (get lg st) = [] ->
      is_Some (files st' !! logging_config.ERROR_LOG)
      /\ is_Some (files st' !! logging_config.INFO_LOG)
      /\ is_Some (files st' !! logging_config.AUDIT_LOG)).
Proof.
  intros lg st'. subst lg st'. rewrite setup_logging_ref.
  pose proof (getLogger_get n st) as Hget.
  pose proof (output_getLogger) as Hout.
  pose proof (get_getLogger_ne n) as Hother.
  unfold logging_config.setup_logging.
  destruct (getLogger n st) as [lg st1] eqn:E. simpl in Hget. cbn [fst].
  assert (forall d, output d st1 = output d st) as Hout1
    by (intros d; specialize (Hout d n st); by rewrite E in Hout).
  assert (forall r', r' <> lg -> get r' st1 = get r' st) as Hother1
    by (intros r' Hr; specialize (Hother r' st); rewrite E in Hother; by apply Hother).
  destruct (handlers (get lg st1)) eqn:Hh; cbn [snd].
  - split; [|split].
    + intros d. unfold addHandler, setLevel.
      repeat (rewrite output_put, output_open_handler).
      by rewrite output_put.
    + intros r' Hr. unfold addHandler, setLevel.
      repeat (rewrite (get_put_ne lg r') by done; rewrite get_open_handler).
      rewrite get_put_ne by done. by apply Hother1.
    + intros _. unfold addHandler. rewrite !files_put.
      split; [|split].
      * do 3 (apply opened_open_handler; right; rewrite files_put).
        apply opened_open_handler. by left.
      * do 2 (apply opened_open_handler; right; rewrite files_put).
        apply opened_open_handler. by left.
      * apply opened_open_handler; right; rewrite files_put.
        apply opened_open_handler. by left.
  - split; [done|]. split; [done|].
    intros Hfresh. rewrite <- Hget, Hh in Hfresh. done.
Qed.

(** X20. [setup_logging] writes nothing and touches no other logger: every
    destination holds afterwards what it held before (a log file that exists
    is opened for appending, not truncated), and every logger other than the
    one asked for is as it was.  When it configures the logger, the three
    log files exist afterwards. *)
Theorem setup_logging_writes_nothing (n : string) (st : State) :
  let lg := fst (logging_config.setup_logging n st) in
  let st' := snd (logging_config.setup_logging n st) in
  (forall d, output d st' = output d st)
  /\ (forall r', r' <> lg -> get r' st' = get r' st)
  /\ (handlers (get lg st) = [] ->
      is_Some (files st' !! logging_config.ERROR_LOG)
      /\ is_Some (files st' !! logging_config.INFO_LOG)
      /\ is_Some (files st' !! logging_config.AUDIT_LOG)).
Proof. exact (setup_logging_frame n st). Qed.

(** X21. A logger that already has a handler is left exactly as it is:
    [setup_logging] then attaches none of its four sinks and does not set
    the level to DEBUG; the whole logging state is unchanged. *)
Theorem setup_logging_skips_a_logger_with_handlers (n : string) (st : State) :
  handlers (get (fst (getLogger n st)) st) <> [] ->
  logging_config.setup_logging n st = (fst (getLogger n st), st).
Proof.
  intros Hsome. rewrite setup_logging_kept by exact Hsome.
  by apply getLogger_known.
Qed.




(** X23. Scopes nest like brackets: with one scope inside another, the two
    START calls come first, outer then inner, the body runs, and the two
    closing calls follow, inner then outer; both report the way the body
    ended, and that outcome is the outcome of the whole. *)
Theorem nested_scopes_close_inside_out
    (py : Platform) {S A : Type} (outer inner : logging_config.LogContext.t)
    (body rest1 rest2 : M S A) (w : World S) :
  let run := logging_config.LogContext.with_ py outer
               (logging_config.LogContext.with_ py inner body rest2) rest1 w in
  exists (w1 w2 : World S) (r : Outcome A) (d1 d2 : Z),
    w_trace w1
    = w_trace w ++ [start_call (logging_config.LogContext.logger outer)
                      (logging_config.LogContext.operation outer);
                    start_call (logging_config.LogContext.logger inner)
                      (logging_config.LogContext.operation inner)]
    /\ body w1 = (r, w2)
    /\ fst run = r
    /\ w_trace (snd run)
       = w_trace w2 ++ [terminal_call (logging_config.LogContext.logger inner)
                          (logging_config.LogContext.operation inner) d2 r;
                        terminal_call (logging_config.LogContext.logger outer)
                          (logging_config.LogContext.operation outer) d1 r]
    /\ w_self (snd run) = w_self w2.
Proof.
  intros run. subst run.
  exists (entered py inner (entered py outer w)).
  exists (snd (body (entered py inner (entered py outer w)))).
  exists (fst (body (entered py inner (entered py outer w)))).
  do 2 eexists. rewrite with_run, with_run. cbn [fst snd].
  rewrite !trace_entered, !trace_exited, !self_exited.
  split; [by rewrite <- app_assoc|]. split; [by destruct (body _)|].
  split; [reflexivity|]. split; [|reflexivity].
  rewrite <- app_assoc. reflexivity.
Qed.

(** ** The further properties at concrete inputs *)

Lemma store_memory_keeps_the_rest_witness :
  let w' := snd (brain_core.store_memory plain_platform "owner" (VStr "jazzu")
                   stocked_world) in
  fst (brain_core.recall_memory plain_platform "project_name" w')
  = fst (brain_core.recall_memory plain_platform "project_name" stocked_world)
  /\ brain_core.memory_context (w_self w') !! "project_name"
     = brain_core.memory_context (w_self stocked_world) !! "project_name"
  /\ brain_core.config (w_self w') = brain_core.config (w_self stocked_world)
  /\ brain_core.conversation_history (w_self w')
     = brain_core.conversation_history (w_self stocked_world).
Proof.
  apply (store_memory_keeps_the_rest plain_platform "owner" "project_name"
           (VStr "jazzu") stocked_world); discriminate.
Defined.

Lemma store_memory_last_write_wins_witness :
  let w1 := snd (brain_core.store_memory plain_platform "owner" (VStr "a")
                   demo_world) in
  let w2 := snd (brain_core.store_memory plain_platform "owner" (VStr "b") w1) in
  fst (brain_core.recall_memory plain_platform "owner" w2) = Return (VStr "b")
  /\ brain_core.memory_context (w_self w2)
     = brain_core.memory_context
         (w_self (snd (brain_core.store_memory plain_platform "owner" (VStr "b")
                         demo_world))).
Proof.
  apply (store_memory_last_write_wins plain_platform "owner" (VStr "a") (VStr "b")
           demo_world).
  discriminate.
Defined.

Lemma stored_none_reads_as_missing_witness :
  let w' := snd (brain_core.store_memory plain_platform "owner" VNone demo_world) in
  brain_core.memory_context (w_self w') !! "owner" = Some VNone
  /\ fst (brain_core.recall_memory plain_platform "owner" w')
     = fst (brain_core.recall_memory plain_platform "owner" demo_world).
Proof.
  apply (stored_none_reads_as_missing plain_platform "owner" demo_world demo_world).
  - discriminate.
  - reflexivity.
Defined.

Lemma memory_keys_are_kept_witness :
  is_Some (brain_core.memory_context
             (w_self (snd (brain_core.think plain_platform (VStr "error")
                             (Some {["topic" := VStr "ml"]}) stocked_world)))
           !! "project_name")
  /\ is_Some (brain_core.memory_context
                (w_self (snd (brain_core.store_memory plain_platform "owner"
                                (VInt 1) stocked_world))) !! "project_name")
  /\ is_Some (brain_core.memory_context
                (w_self (snd (brain_core.recall_memory plain_platform "owner"
                                stocked_world))) !! "project_name").
Proof.
  apply (memory_keys_are_kept plain_platform (VStr "error")
           (Some {["topic" := VStr "ml"]}) "project_name" "owner" (VInt 1)
           stocked_world).
  exists (VStr "Nia LeSane"). reflexivity.
Defined.

Lemma think_records_the_exchange_witness :
  exists n : nat,
    w_self (snd (brain_core.think plain_platform (VStr "hello") None demo_world))
    = brain_core.mkBrain (brain_core.config (w_self demo_world))
        (brain_core.memory_context (w_self demo_world))
        (brain_core.conversation_history (w_self demo_world)
         ++ [brain_core.mkEntry (isoformat plain_platform (w_clock demo_world n))
               "hello" (VStr ("Reasoning response to: " +:+ "hello"))]).
Proof.
  apply (think_records_the_exchange plain_platform "hello" None demo_world).
  - discriminate.
  - reflexivity.
Defined.

Lemma context_overrides_memory_witness :
  fst (brain_core.recall_memory plain_platform "project_name"
         (snd (brain_core.think plain_platform (VStr "hello")
                 (Some {["project_name" := VStr "other"]}) stocked_world)))
  = Return (VStr "other").
Proof.
  pose proof (context_overrides_memory plain_platform "hello"
                {["project_name" := VStr "other"]} "project_name" stocked_world) as H.
  vm_compute in H. vm_compute. apply H. discriminate.
Defined.

Lemma error_trigger_ignores_case_witness :
  fst (brain_core.think plain_platform (VStr ("An " +:+ "ErRoR" +:+ " occurred"))
         None demo_world)
  = Raise (mkExn RuntimeError "Simulated reasoning error").
Proof.
  apply (error_trigger_ignores_case plain_platform "An " "ErRoR" " occurred" None
           demo_world).
  reflexivity.
Defined.

Lemma only_the_simulated_error_escapes_witness :
  mkExn RuntimeError "Simulated reasoning error"
  = mkExn RuntimeError "Simulated reasoning error"
  /\ exists p, VStr "error" = VStr p /\ contains "error" (lower p) = true.
Proof.
  apply (only_the_simulated_error_escapes plain_platform (VStr "error") None
           demo_world (mkExn RuntimeError "Simulated reasoning error")).
  vm_compute. reflexivity.
Defined.

Lemma prompt_is_cut_in_the_log_witness :
  exists calls,
    w_trace (snd (brain_core.think plain_platform (VStr "hello") None demo_world))
    = w_trace demo_world ++ calls
    /\ calls !! 1%nat
       = Some (mkLogCall brain_core.logger INFO
                 ("Processing prompt: " +:+ substring 0 100 "hello" +:+ "...") None)
    /\ String.length ("Processing prompt: " +:+ substring 0 100 "hello" +:+ "...")
       = (22 + Nat.min 100 (String.length "hello"))%nat.
Proof.
  apply (prompt_is_cut_in_the_log plain_platform "hello" None demo_world).
  discriminate.
Defined.

Lemma history_is_returned_in_order_witness :
  let w' := snd (brain_core.think plain_platform (VStr "hello") None demo_world) in
  exists n : nat,
    fst (brain_core.get_conversation_history plain_platform w')
    = Return (brain_core.conversation_history (w_self demo_world)
              ++ [brain_core.mkEntry (isoformat plain_platform (w_clock demo_world n))
                    "hello" (VStr ("Reasoning response to: " +:+ "hello"))])
    /\ w_self (snd (brain_core.get_conversation_history plain_platform w'))
       = w_self w'.
Proof.
  apply (history_is_returned_in_order plain_platform "hello" None demo_world).
  - discriminate.
  - reflexivity.
Defined.

Lemma absorbed_errors_close_as_complete_witness :
  exists d1 d2 : Z,
    w_trace (snd (brain_core.think plain_platform VNone None demo_world))
    = w_trace demo_world ++
      [mkLogCall brain_core.logger INFO "START: Brain.think()" None;
       mkLogCall brain_core.logger WARNING
         "Invalid input for reasoning: Prompt must be a non-empty string" None;
       mkLogCall brain_core.logger INFO
         (logging_config.LogContext.complete_msg "Brain.think()" d1) None]
    /\ w_trace (snd (brain_core.store_memory plain_platform "" (VInt 1) demo_world))
       = w_trace demo_world ++
         [mkLogCall brain_core.logger INFO "START: Brain.store_memory()" None;
          mkLogCall brain_core.logger ERROR
            "Error storing memory: Memory key cannot be empty"
            (Some (mkExn ValueError "Memory key cannot be empty"));
          mkLogCall brain_core.logger INFO
            (logging_config.LogContext.complete_msg "Brain.store_memory()" d2)
            None].
Proof.
  apply (absorbed_errors_close_as_complete plain_platform VNone None (VInt 1)
           demo_world).
  left. reflexivity.
Defined.





Lemma setup_logging_skips_a_logger_with_handlers_witness :
  logging_config.setup_logging "worker" worker_state
  = (fst (getLogger "worker" worker_state), worker_state)
  /\ level (get (Named "worker")
              (snd (logging_config.setup_logging "worker" worker_state))) = ERROR
  /\ length (handlers (get (Named "worker")
                         (snd (logging_config.setup_logging "worker" worker_state))))
     = 1%nat.
Proof.
  assert (logging_config.setup_logging "worker" worker_state
          = (fst (getLogger "worker" worker_state), worker_state)) as H.
  { apply (setup_logging_skips_a_logger_with_handlers "worker" worker_state).
    vm_compute. discriminate. }
  split; [exact H|]. rewrite H. split; reflexivity.
Defined.


Example root_and_logger_both_write :
  output (ToFile logging_config.ERROR_LOG)
    (callHandlers plain_platform (Named "nia_core")
       (mkLogRecord 0 "nia_core" ERROR "app.py" 7%nat "disk failure" None)
       (snd (logging_config.setup_logging "" logging_config.imported)))
  = ["0 - nia_core - ERROR - [app.py:7] - disk failure";
     "0 - nia_core - ERROR - [app.py:7] - disk failure"].
Proof. vm_compute. reflexivity. Qed.
